(** * Student face recognition client: request layer and API services

    A shallow embedding of the mobile client's HTTP layer:
    - [makeRequest] of [mobile/screens/StudentsListScreen.tsx] (fetch with an
      abort timer and a bounded retry loop with exponential backoff);
    - the axios based [ApiService] class (file [services/ApiService.js], kept in
      [src/unnamed/part_004]) and its [handleApiError];
    - the older [mobile/src/services/apiService.js] and the fetch based
      [apiService] object of the menu screen.

    The transport is a function from the attempt number to the reply the
    server gives on that attempt, so every sequence of transport outcomes is
    covered.  Each operation returns its result together with the trace of
    the observable events (attempts and backoff waits). *)

From Stdlib Require Import ZArith QArith Qminmax String Ascii List Bool Lia.
Import ListNotations.

Open Scope string_scope.
Open Scope list_scope.
Open Scope Z_scope.

Set Warnings "-register-all".

(* ------------------------------------------------------------------ *)
(** ** JSON values and JavaScript truthiness *)

(** A decoded JSON value.  Numbers are rationals: JSON numbers in the
    responses are finite decimals (for instance a similarity of 0.87). *)
Inductive json : Type :=
| JNull
| JBool (b : bool)
| JNum (q : Q)
| JStr (s : string)
| JArr (items : list json)
| JObj (fields : list (string * json)).

(** [Boolean(v)] for a JSON value. *)
Definition truthy (v : json) : bool :=
  match v with
  | JNull => false
  | JBool b => b
  | JNum q => negb (Qeq_bool q 0)
  | JStr s => negb (String.eqb s "")
  | JArr _ => true
  | JObj _ => true
  end.

(** Property read [v.k] on a value that is not [null]; [None] is
    [undefined].  [JSON.parse] keeps the last of duplicated keys. *)
Fixpoint assoc_last (k : string) (fs : list (string * json)) : option json :=
  match fs with
  | [] => None
  | (k', v) :: rest =>
      match assoc_last k rest with
      | Some w => Some w
      | None => if String.eqb k k' then Some v else None
      end
  end.

Definition get (v : json) (k : string) : option json :=
  match v with
  | JObj fs => assoc_last k fs
  | _ => None
  end.

(** Optional chaining [v?.k] where [v] may be [undefined]. *)
Definition get_opt (v : option json) (k : string) : option json :=
  match v with
  | Some JNull | None => None
  | Some w => get w k
  end.

(** [x || d] where [x] may be [undefined]. *)
Definition or_else (x : option json) (d : json) : json :=
  match x with
  | Some v => if truthy v then v else d
  | None => d
  end.

(** [Array.isArray(v)]. *)
Definition is_array (v : json) : bool :=
  match v with JArr _ => true | _ => false end.

(* ------------------------------------------------------------------ *)
(** ** Transport, errors and traces *)

(** What the network gives for one request: no connection at all, or a
    response whose headers arrive [elapsed] milliseconds after the request
    was issued, with its status, its raw body text and the body parsed as
    JSON when the text is valid JSON. *)
Inductive reply : Type :=
| NoConnection
| Responded (elapsed : Z) (status : Z) (text : string) (body : option json).

(** The transport of one call: the reply to the [n]-th request issued. *)
Definition transport := Z -> reply.

(** The errors thrown by the code. *)
Inductive js_error : Type :=
| NetworkError                       (** fetch rejects: no response *)
| AbortError                         (** the abort timer fired first *)
| HttpError (status : Z) (text : string)
    (** [new Error(`HTTP ${status}: ${errorText}`)] *)
| SyntaxError                        (** [response.json()] on a non JSON body *)
| ErrorMsg (msg : json)              (** [new Error(msg)] *)
| Wrapped (prefix : string) (inner : js_error)
    (** [new Error(`${prefix}${inner.message}`)] *)
| HttpStatusError (status : Z)       (** [new Error(`HTTP ${status}`)] *)
| TypeErr                            (** reading a property of [null] *)
| AxiosError (code : option string) (response : option (Z * json))
    (** an axios rejection: [error.code] and [error.response]; axios always
        sets [error.request] on these *).

Inductive result : Type :=
| Ok (v : json)
| Err (e : js_error).

(** Observable events: a request issued, a backoff wait. *)
Inductive event : Type :=
| Attempt (n : Z)
| Wait (ms : Z).

Fixpoint count_attempts (log : list event) : nat :=
  match log with
  | [] => O
  | Attempt _ :: t => S (count_attempts t)
  | Wait _ :: t => count_attempts t
  end.

Fixpoint wait_times (log : list event) : list Z :=
  match log with
  | [] => []
  | Attempt _ :: t => wait_times t
  | Wait ms :: t => ms :: wait_times t
  end.

Definition ok_status (s : Z) : bool := (200 <=? s) && (s <=? 299).

(** A request that fails: no response, no response within [timeout] ms, or
    a status outside 2xx. *)
Definition fetch_failure (timeout : Z) (r : reply) : bool :=
  match r with
  | NoConnection => true
  | Responded elapsed status _ _ => (timeout <=? elapsed) || negb (ok_status status)
  end.

(** A 5xx response (whenever it arrives). *)
Definition is_5xx (r : reply) : bool :=
  match r with
  | NoConnection => false
  | Responded _ status _ _ => (500 <=? status) && (status <=? 599)
  end.

(** A 4xx response arriving within [timeout] ms. *)
Definition is_4xx (timeout : Z) (r : reply) : bool :=
  match r with
  | NoConnection => false
  | Responded elapsed status _ _ =>
      (elapsed <? timeout) && (400 <=? status) && (status <=? 499)
  end.

(** A transient failure: a 5xx response, a timeout or no connection. *)
Definition transient_failure (timeout : Z) (r : reply) : bool :=
  match r with
  | NoConnection => true
  | Responded elapsed _ _ _ => (timeout <=? elapsed) || is_5xx r
  end.

(** [a, a + 1, ..., a + d - 1]. *)
Fixpoint zrange (a : Z) (d : nat) : list Z :=
  match d with
  | O => []
  | S d' => a :: zrange (a + 1) d'
  end.

Definition sum_Z (l : list Z) : Z := fold_right Z.add 0 l.

(* ------------------------------------------------------------------ *)
(** ** [makeRequest] (StudentsListScreen.tsx) *)

Module MakeRequest.

(** The body of the [try] block for one attempt: [fetch] with an abort timer
    of [timeout] ms; a non ok status throws [HTTP status: text]; otherwise
    the body is decoded with [response.json()]. *)
Definition fetch_attempt (timeout : Z) (r : reply) : result :=
  match r with
  | NoConnection => Err NetworkError
  | Responded elapsed status text body =>
      if timeout <=? elapsed then Err AbortError
      else if negb (ok_status status) then Err (HttpError status text)
      else match body with
           | Some data => Ok data
           | None => Err SyntaxError
           end
  end.

(** [Math.min(1000 * Math.pow(2, attempt - 1), 5000)]. *)
Definition backoff (attempt : Z) : Z := Z.min (1000 * 2 ^ (attempt - 1)) 5000.

(** Control state of the [for] loop. *)
Inductive control : Type :=
| Running (attempt : Z) (lastError : option js_error)
| Finished (r : result).

Definition machine := (control * list event)%type.

Definition init : machine := (Running 1 None, []).

(** One iteration of [for (let attempt = 1; attempt <= retries; attempt++)],
    or the final [throw lastError || new Error(...)] after the loop. *)
Definition step (timeout retries : Z) (tr : transport) (m : machine) : machine :=
  let '(c, log) := m in
  match c with
  | Finished _ => m
  | Running attempt lastError =>
      if attempt <=? retries then
        match fetch_attempt timeout (tr attempt) with
        | Ok data => (Finished (Ok data), log ++ [Attempt attempt])
        | Err e =>
            if attempt =? retries then (Finished (Err e), log ++ [Attempt attempt])
            else (Running (attempt + 1) (Some e),
                  log ++ [Attempt attempt; Wait (backoff attempt)])
        end
      else
        (Finished (Err (match lastError with
                        | Some e => e
                        | None => ErrorMsg (JStr "Request failed after all retries")
                        end)), log)
  end.

Fixpoint run (timeout retries : Z) (tr : transport) (fuel : nat) (m : machine)
  : machine :=
  match fuel with
  | O => m
  | S f => run timeout retries tr f (step timeout retries tr m)
  end.

(** [makeRequest(endpoint, {timeout, retries})]: the loop run for
    [retries + 1] iterations; [None] if it has not settled by then. *)
Definition makeRequest (timeout retries : Z) (tr : transport)
  : option (result * list event) :=
  match run timeout retries tr (S (Z.to_nat retries)) init with
  | (Finished r, log) => Some (r, log)
  | (Running _ _, _) => None
  end.

(** The trace of [d] failed attempts from attempt [a] on, each followed by
    its backoff wait. *)
Fixpoint fail_log (a : Z) (d : nat) : list event :=
  match d with
  | O => []
  | S d' => Attempt a :: Wait (backoff a) :: fail_log (a + 1) d'
  end.

End MakeRequest.

(* ------------------------------------------------------------------ *)
(** ** axios (one request, no retry) *)

Module Axios.

(** [client.get/post(url, ...)] with a timeout of [timeout] ms, as request
    number [n] of the call: axios issues exactly one request.  A timeout
    rejects with code [ECONNABORTED], a missing response with
    [ERR_NETWORK], a status outside 2xx (the default [validateStatus]) with
    the response attached.  The body is parsed as JSON when it is JSON and
    kept as the raw text otherwise (axios' silent JSON parsing). *)
Definition send (timeout : Z) (tr : transport) (n : Z) : result * list event :=
  (match tr n with
   | NoConnection => Err (AxiosError (Some "ERR_NETWORK") None)
   | Responded elapsed status text body =>
       if timeout <=? elapsed then Err (AxiosError (Some "ECONNABORTED") None)
       else
         let data := match body with Some j => j | None => JStr text end in
         if ok_status status then Ok data
         else if status <? 500
              then Err (AxiosError (Some "ERR_BAD_REQUEST") (Some (status, data)))
              else Err (AxiosError (Some "ERR_BAD_RESPONSE") (Some (status, data)))
   end, [Attempt n]).

(** [error.code] and [error.response] of any thrown error. *)
Definition err_code (e : js_error) : option string :=
  match e with AxiosError c _ => c | _ => None end.

Definition err_response (e : js_error) : option (Z * json) :=
  match e with AxiosError _ r => r | _ => None end.

End Axios.

(* ------------------------------------------------------------------ *)
(** ** The [ApiService] class (services/ApiService.js) *)

Module ApiService.
Import Axios.

(** The axios client's default timeout. *)
Definition client_timeout : Z := 120000.

(** The [catch] block of [recognizeStudent]. *)
Definition recognize_error (e : js_error) : js_error :=
  if match err_code e with Some c => String.eqb c "ECONNABORTED" | None => false end
  then ErrorMsg (JStr "⏱️ Timeout: El reconocimiento está tomando demasiado tiempo")
  else match err_response e with
       | Some (status, data) =>
           if status =? 400 then
             ErrorMsg (or_else (get_opt (Some data) "detail")
                               (JStr "Imagen inválida o sin rostro detectado"))
           else if 500 <=? status then
             ErrorMsg (JStr "🔧 Error del servidor. Intenta nuevamente.")
           else e
       | None => ErrorMsg (JStr "🌐 Sin conexión al servidor. Verifica tu internet.")
       end.

(** [recognizeStudent(imageFile)]: one POST to [/api/recognize] with a
    timeout of 120000 ms; the response data is returned as it is. *)
Definition recognizeStudent (tr : transport) : result * list event :=
  let '(r, log) := send 120000 tr 1 in
  (match r with
   | Ok data => Ok data
   | Err e => Err (recognize_error e)
   end, log).

(** The object returned when the statistics cannot be fetched. *)
Definition stats_default : json :=
  JObj [("total_recognitions", JNum 0);
        ("successful_recognitions", JNum 0);
        ("success_rate", JNum 0)].

(** [getRecognitionStats()]: GET [/api/recognition/stats] with the client's
    timeout; any error is replaced by [stats_default]. *)
Definition getRecognitionStats (tr : transport) : result * list event :=
  let '(r, log) := send client_timeout tr 1 in
  (match r with
   | Ok data => Ok data
   | Err _ => Ok stats_default
   end, log).

(** [handleApiError(error, defaultMessage)]: always throws; the result is
    the thrown error.  An error that is not an axios error already has a
    non empty message, so [new Error(error.message || defaultMessage)]
    carries the same message as the error itself. *)
Definition handleApiError (error : js_error) (defaultMessage : string) : js_error :=
  match error with
  | AxiosError _ (Some (status, data)) =>
      if status =? 400 then
        ErrorMsg (or_else (get_opt (Some data) "detail") (JStr "Datos inválidos"))
      else if status =? 404 then ErrorMsg (JStr "Recurso no encontrado")
      else if status =? 422 then ErrorMsg (JStr "Error de validación de datos")
      else if 500 <=? status then ErrorMsg (JStr "Error interno del servidor")
      else ErrorMsg (or_else (get_opt (Some data) "detail") (JStr defaultMessage))
  | AxiosError _ None => ErrorMsg (JStr "Sin conexión al servidor")
  | ErrorMsg m => ErrorMsg (or_else (Some m) (JStr defaultMessage))
  | e => e
  end.

End ApiService.

(* ------------------------------------------------------------------ *)
(** ** The older [apiService.js] (mobile/src/services/apiService.js) *)

Module ApiServiceOld.
Import Axios.

Definition client_timeout : Z := 30000.

(** The object built by [recognizeStudent] from [response.data]. *)
Record recognition : Type := {
  success : json;
  found : json;
  student : json;
  similarity : json;
  confidence : json;
  message : json
}.

(** The transformation of [backendData]; reading a field of [null] throws. *)
Definition transform (backendData : json) : option recognition :=
  match backendData with
  | JNull => None
  | _ => Some {|
      success := or_else (get backendData "found") (JBool false);
      found := or_else (get backendData "found") (JBool false);
      student := or_else (get backendData "student") JNull;
      similarity := or_else (get backendData "similarity") (JNum 0);
      confidence := or_else (get backendData "confidence") (JStr "Baja");
      message := or_else (get backendData "message") (JStr "Procesado correctamente")
    |}
  end.

(** [recognizeStudent(imageFile)]: one POST with the client's timeout, then
    the transformation; every error is rethrown. *)
Definition recognizeStudent (tr : transport) : (recognition + js_error) * list event :=
  let '(r, log) := send client_timeout tr 1 in
  (match r with
   | Ok data =>
       match transform data with
       | Some res => inl res
       | None => inr TypeErr
       end
   | Err e => inr e
   end, log).

(** [getRecognitionStats()]: GET [/api/recognition/stats]; every error is
    rethrown. *)
Definition getRecognitionStats (tr : transport) : result * list event :=
  let '(r, log) := send client_timeout tr 1 in
  (match r with
   | Ok data => Ok data
   | Err e => Err e
   end, log).

End ApiServiceOld.

(* ------------------------------------------------------------------ *)
(** ** The fetch based [apiService] objects of the screens *)

(** [fetchWithTimeout(url, timeoutMs)] of the menu screen (AppNavigator.js):
    the response is returned whatever its status. *)
Definition fetchWithTimeout (timeoutMs : Z) (r : reply)
  : (Z * string * option json) + js_error :=
  match r with
  | NoConnection => inr NetworkError
  | Responded elapsed status text body =>
      if timeoutMs <=? elapsed then inr AbortError else inl (status, text, body)
  end.

Module MenuApi.

(** [apiService.getStudents] of the menu screen. *)
Definition getStudents (tr : transport) : result * list event :=
  (match fetchWithTimeout 15000 (tr 1) with
   | inr e => Err e
   | inl (status, _, body) =>
       if negb (ok_status status) then Err (HttpStatusError status)
       else match body with
            | None => Err SyntaxError
            | Some students => Ok (if is_array students then students else JArr [])
            end
   end, [Attempt 1]).

(** [apiService.getRecognitionStats] of the menu screen: every error is
    replaced by the zeroed statistics. *)
Definition getRecognitionStats (tr : transport) : result * list event :=
  (match fetchWithTimeout 15000 (tr 1) with
   | inr _ => Ok ApiService.stats_default
   | inl (status, _, body) =>
       if negb (ok_status status) then Ok ApiService.stats_default
       else match body with
            | None => Ok ApiService.stats_default
            | Some stats => Ok stats
            end
   end, [Attempt 1]).

End MenuApi.

Module StudentsListApi.
Import MakeRequest.

(** [apiService.getStudents] of StudentsListScreen.tsx. *)
Definition getStudents (tr : transport) : option (result * list event) :=
  match makeRequest 20000 5 tr with
  | Some (Ok students, log) =>
      Some (Ok (if is_array students then students else JArr []), log)
  | Some (Err e, log) =>
      Some (Err (Wrapped "No se pudieron cargar los estudiantes: " e), log)
  | None => None
  end.

End StudentsListApi.

(* ------------------------------------------------------------------ *)
(** ** The student code field of the create forms *)

Module Codigo.

(** Characters are bytes; [trim] and [toUpperCase] are modelled on ASCII:
    [trim] removes the ASCII white space characters (tab, line feed,
    vertical tab, form feed, carriage return, space) and [toUpperCase] maps
    [a]..[z] to [A]..[Z]. *)
Definition is_space (c : ascii) : bool :=
  let n := nat_of_ascii c in
  ((9 <=? n)%nat && (n <=? 13)%nat) || (n =? 32)%nat.

Fixpoint trim_start (s : list ascii) : list ascii :=
  match s with
  | [] => []
  | c :: t => if is_space c then trim_start t else s
  end.

(** [s.trim()]. *)
Definition trim (s : list ascii) : list ascii := rev (trim_start (rev (trim_start s))).

Definition is_lower (c : ascii) : bool :=
  let n := nat_of_ascii c in (97 <=? n)%nat && (n <=? 122)%nat.

Definition upper_char (c : ascii) : ascii :=
  if is_lower c then ascii_of_nat (nat_of_ascii c - 32) else c.

(** [s.toUpperCase()]. *)
Definition toUpperCase (s : list ascii) : list ascii := map upper_char s.

(** The two create student forms. *)
Inductive screen : Type :=
| AddStudentScreen      (** mobile/screens/AddStudentScreen.tsx *)
| CreateStudentScreen.  (** mobile/src/screens/CreateStudentScreen.js *)

(** The form state after the operator typed [input] in the code field: both
    forms store [input.toUpperCase()] ([onChangeText]). *)
Definition typed_state (input : list ascii) : list ascii := toUpperCase input.

(** The [codigo] form field sent to the backend on submission, or [None] when
    the form's validation of the code refuses to submit.  AddStudentScreen
    requires a non blank code and sends [codigo.trim().toUpperCase()];
    CreateStudentScreen requires a non blank code of at least 6 characters
    and passes [formData] to [ApiService.createStudent], which appends
    [studentData.codigo] as it is. *)
Definition sent_codigo (sc : screen) (input : list ascii) : option (list ascii) :=
  let codigo := typed_state input in
  match sc with
  | AddStudentScreen =>
      match trim codigo with
      | [] => None
      | _ => Some (toUpperCase (trim codigo))
      end
  | CreateStudentScreen =>
      match trim codigo with
      | [] => None
      | _ => if (length codigo <? 6)%nat then None else Some codigo
      end
  end.

End Codigo.

(* ------------------------------------------------------------------ *)
(** ** Searching the roster *)

Module Search.
Import Codigo.

Definition is_upper (c : ascii) : bool :=
  let n := nat_of_ascii c in (65 <=? n)%nat && (n <=? 90)%nat.

Definition lower_char (c : ascii) : ascii :=
  if is_upper c then ascii_of_nat (nat_of_ascii c + 32) else c.

(** [s.toLowerCase()] on ASCII. *)
Definition toLowerCase (s : list ascii) : list ascii := map lower_char s.

Fixpoint starts_with (p s : list ascii) : bool :=
  match p, s with
  | [], _ => true
  | _ :: _, [] => false
  | x :: p', y :: s' => Ascii.eqb x y && starts_with p' s'
  end.

(** [s.includes(p)]. *)
Fixpoint includes (s p : list ascii) : bool :=
  starts_with p s || match s with [] => false | _ :: t => includes t p end.

(** [(student.k || '').toLowerCase()]: [None] when the value has no
    [toLowerCase] method (a truthy value that is not a string). *)
Definition field_lower (student : json) (k : string) : option (list ascii) :=
  match or_else (get student k) (JStr "") with
  | JStr s => Some (toLowerCase (list_ascii_of_string s))
  | _ => None
  end.

(** The filter callback of [filteredStudents] in StudentsListScreen.tsx:
    [false] for a falsy student, otherwise the four fields tried in order,
    stopping at the first that includes the query; [None] is a thrown
    [TypeError]. *)
Definition matches (searchLower : list ascii) (student : json) : option bool :=
  if negb (truthy student) then Some false else
  match field_lower student "nombre" with
  | None => None
  | Some n => if includes n searchLower then Some true else
  match field_lower student "apellidos" with
  | None => None
  | Some a => if includes a searchLower then Some true else
  match field_lower student "codigo" with
  | None => None
  | Some c => if includes c searchLower then Some true else
  match field_lower student "correo" with
  | None => None
  | Some e => Some (includes e searchLower)
  end end end end.

(** [Array.prototype.filter] with a callback that may throw. *)
Fixpoint filter_opt (f : json -> option bool) (l : list json) : option (list json) :=
  match l with
  | [] => Some []
  | x :: t =>
      match f x with
      | None => None
      | Some b =>
          match filter_opt f t with
          | None => None
          | Some r => Some (if b then x :: r else r)
          end
      end
  end.

(** [filteredStudents] of StudentsListScreen.tsx: [None] when it throws. *)
Definition filteredStudents (students : json) (searchQuery : list ascii)
  : option (list json) :=
  match students with
  | JArr l =>
      match trim searchQuery with
      | [] => Some l
      | _ => filter_opt (matches (toLowerCase searchQuery)) l
      end
  | _ => Some []
  end.

(** [student.k.toLowerCase()] without a fallback: reading a field of
    [null] or calling [toLowerCase] on a non string throws. *)
Definition field_lower_strict (student : json) (k : string) : option (list ascii) :=
  match student with
  | JNull => None
  | _ => match get student k with
         | Some (JStr s) => Some (toLowerCase (list_ascii_of_string s))
         | _ => None
         end
  end.

(** The filter callback of [filterStudents] in the search screen
    ([src/unnamed/part_000]); [searchText.toLowerCase()] is the query. *)
Definition matches_strict (q : list ascii) (student : json) : option bool :=
  match field_lower_strict student "nombre" with
  | None => None
  | Some n => if includes n q then Some true else
  match field_lower_strict student "apellidos" with
  | None => None
  | Some a => if includes a q then Some true else
  match field_lower_strict student "codigo" with
  | None => None
  | Some c => if includes c q then Some true else
  match field_lower_strict student "correo" with
  | None => None
  | Some e => Some (includes e q)
  end end end end.

(** [filterStudents] of the search screen: the list shown, or [None] when
    it throws. *)
Definition filterStudents (students : list json) (searchText : list ascii)
  : option (list json) :=
  match trim searchText with
  | [] => Some students
  | _ => filter_opt (matches_strict (toLowerCase searchText)) students
  end.

(** The fields both filters search, in the order they are tried. *)
Definition search_fields : list string := ["nombre"; "apellidos"; "codigo"; "correo"].

(** The value of a callback that may throw, as [filter] uses it. *)
Definition holds (f : json -> option bool) (x : json) : bool :=
  match f x with Some b => b | None => false end.

(** The field reads of [filteredStudents] do not throw on a student when
    each searched field is absent, falsy or a string. *)
Definition fields_ok (x : json) : Prop :=
  forall k, In k search_fields -> field_lower x k <> None.

End Search.

(* ------------------------------------------------------------------ *)
(** ** The menu screen's statistics (AppNavigator.js) *)

Module MenuStats.

Record combined := {
  total_students : nat;
  students_with_photo : nat;
  requisitoriados : nat;
  successful_recognitions : json;
  success_rate : json;
  total_recognitions : json
}.

(** [Boolean(x)] where [x] may be [undefined]. *)
Definition truthy_opt (x : option json) : bool :=
  match x with Some v => truthy v | None => false end.

(** [s?.k] for an element of the roster. *)
Definition elem_field (s : json) (k : string) : option json :=
  get_opt (Some s) k.

(** [combinedStats]: [students] and [recognitionStats] as returned by the
    queries ([None] is [undefined] before they settle). *)
Definition combinedStats (students : option json) (recognitionStats : option json)
  : combined :=
  let l := match students with Some (JArr l) => Some l | _ => None end in
  {| total_students := match l with Some l => length l | None => O end;
     students_with_photo :=
       match l with
       | Some l => length (filter (fun s => truthy_opt (elem_field s "imagen_path")) l)
       | None => O
       end;
     requisitoriados :=
       match l with
       | Some l => length (filter (fun s => truthy_opt (elem_field s "requisitoriado")) l)
       | None => O
       end;
     successful_recognitions :=
       or_else (get_opt recognitionStats "successful_recognitions") (JNum 0);
     success_rate := or_else (get_opt recognitionStats "success_rate") (JNum 0);
     total_recognitions := or_else (get_opt recognitionStats "total_recognitions") (JNum 0)
  |}.

End MenuStats.

(* ------------------------------------------------------------------ *)
(** ** The other methods of the [ApiService] class *)

Module ApiServiceMore.
Import Axios ApiService.

(** The common shape of the student methods: one request, the response
    data on success, the error of [handleApiError] otherwise. *)
Definition handled (timeout : Z) (defaultMessage : string) (tr : transport)
  : result * list event :=
  let '(r, log) := send timeout tr 1 in
  (match r with
   | Ok data => Ok data
   | Err e => Err (handleApiError e defaultMessage)
   end, log).

(** [getStudents()]: logging [response.data.length] throws a [TypeError]
    on a [null] body, which reaches [handleApiError]. *)
Definition getStudents (tr : transport) : result * list event :=
  let '(r, log) := send client_timeout tr 1 in
  (match r with
   | Ok JNull => Err (handleApiError TypeErr "No se pudieron cargar los estudiantes")
   | Ok data => Ok data
   | Err e => Err (handleApiError e "No se pudieron cargar los estudiantes")
   end, log).

Definition getStudent (tr : transport) : result * list event :=
  handled client_timeout "No se pudo obtener el estudiante" tr.

(** [createStudent] posts with a timeout of 60000 ms. *)
Definition createStudent (tr : transport) : result * list event :=
  handled 60000 "No se pudo crear el estudiante" tr.

Definition updateStudent (tr : transport) : result * list event :=
  handled client_timeout "No se pudo actualizar el estudiante" tr.

Definition deleteStudent (tr : transport) : result * list event :=
  handled client_timeout "No se pudo eliminar el estudiante" tr.

(** [checkHealth()]: GET [/health] with a timeout of 10000 ms. *)
Definition checkHealth (tr : transport) : result * list event :=
  let '(r, log) := send 10000 tr 1 in
  (match r with
   | Ok data => Ok data
   | Err _ => Err (ErrorMsg (JStr "Servidor no disponible"))
   end, log).

(** [getRecognitionLogs()]: any error gives [[]]. *)
Definition getRecognitionLogs (tr : transport) : result * list event :=
  let '(r, log) := send client_timeout tr 1 in
  (match r with
   | Ok data => Ok data
   | Err _ => Ok (JArr [])
   end, log).

(** The image picked by the operator. *)
Record image_file := {
  uri : string;
  type_ : option string;
  fileName : option string
}.

(** The name of an image part: the picked file's name, or the method's
    default ([student_${codigo}.jpg] in [createStudent],
    [student_${studentId}_updated.jpg] in [updateStudent]). *)
Inductive file_name := Given (s : string) | DefaultName.

(** A [FormData] entry: a text field ([None] is [undefined]) or a file. *)
Inductive form_value :=
| FText (v : option json)
| FFile (uri type_ : string) (name : file_name).

(** [s || d] on an optional string. *)
Definition str_or (s : option string) (d : string) : string :=
  match s with
  | Some x => if String.eqb x "" then d else x
  | None => d
  end.

Definition image_part (f : image_file) : string * form_value :=
  ("image", FFile (uri f) (str_or (type_ f) "image/jpeg")
                  (match fileName f with
                   | Some n => if String.eqb n "" then DefaultName else Given n
                   | None => DefaultName
                   end)).

(** The [FormData] built by [createStudent(studentData, imageFile)]. *)
Definition createStudent_form (studentData : json) (imageFile : image_file)
  : list (string * form_value) :=
  [("nombre", FText (get studentData "nombre"));
   ("apellidos", FText (get studentData "apellidos"));
   ("codigo", FText (get studentData "codigo"));
   ("correo", FText (get studentData "correo"));
   ("requisitoriado",
      FText (Some (JStr (if MenuStats.truthy_opt (get studentData "requisitoriado")
                         then "true" else "false"))));
   image_part imageFile].

(** The [FormData] built by [updateStudent(id, studentData, imageFile)]:
    [studentData] in the order of [Object.keys], each value [None] when
    [undefined]. *)
Definition updateStudent_form (studentData : list (string * option json))
    (imageFile : option image_file) : list (string * form_value) :=
  map (fun kv => (fst kv, FText (snd kv)))
      (filter (fun kv => match snd kv with Some _ => true | None => false end) studentData)
  ++ match imageFile with
     | Some f => [image_part f]
     | None => []
     end.

(** The error cases shared by the student methods built on [handled]. *)
Definition crud_errors (op : transport -> result * list event) (timeout : Z)
    (tr : transport) : Prop :=
  (tr 1 = NoConnection ->
     op tr = (Err (ErrorMsg (JStr "Sin conexión al servidor")), [Attempt 1])) /\
  (forall el st txt b, tr 1 = Responded el st txt b ->
     (timeout <= el ->
        op tr = (Err (ErrorMsg (JStr "Sin conexión al servidor")), [Attempt 1])) /\
     (el < timeout -> st = 404 ->
        op tr = (Err (ErrorMsg (JStr "Recurso no encontrado")), [Attempt 1])) /\
     (el < timeout -> 500 <= st ->
        op tr = (Err (ErrorMsg (JStr "Error interno del servidor")), [Attempt 1]))).

End ApiServiceMore.

(* ------------------------------------------------------------------ *)
(** ** Form checks of CreateStudentScreen.js and EditStudentScreen.js *)

Module Email.

(** Addresses are ASCII strings here.  A character matched by [[^\s@]]:
    [\s] is taken as the ASCII white space of [Codigo.is_space].  JS's [\s]
    also matches Unicode spaces (U+00A0, U+2028, U+FEFF, ...), which are
    not ASCII characters, so beyond ASCII this check accepts more addresses
    than the source's regular expression. *)
Definition plain (c : ascii) : bool :=
  negb (Codigo.is_space c) && negb (Ascii.eqb c "@"%char).

(** The language of [/^[^\s@]+@[^\s@]+\.[^\s@]+$/]. *)
Definition email_regex (s : list ascii) : Prop :=
  exists a b c,
    a <> [] /\ b <> [] /\ c <> [] /\
    forallb plain a = true /\ forallb plain b = true /\ forallb plain c = true /\
    s = a ++ "@"%char :: b ++ "."%char :: c.

(** A character other than [@]. *)
Definition no_at (c : ascii) : bool := negb (Ascii.eqb c "@"%char).

(** Split at the first [@]. *)
Fixpoint split_at_at (s : list ascii) : option (list ascii * list ascii) :=
  match s with
  | [] => None
  | c :: t =>
      if Ascii.eqb c "@"%char then Some ([], t)
      else match split_at_at t with
           | Some (a, d) => Some (c :: a, d)
           | None => None
           end
  end.

(** A [.] followed by at least one character. *)
Fixpoint dot_then_nonempty (t : list ascii) : bool :=
  match t with
  | [] => false
  | c :: t' => (Ascii.eqb c "."%char && negb (match t' with [] => true | _ => false end))
               || dot_then_nonempty t'
  end.

(** [isValidEmail(email)], deciding the regular expression. *)
Definition isValidEmail (s : list ascii) : bool :=
  match split_at_at s with
  | Some (a, d) =>
      negb (match a with [] => true | _ => false end) &&
      forallb plain a && forallb plain d &&
      match d with [] => false | _ :: t => dot_then_nonempty t end
  | None => false
  end.

End Email.

(* ------------------------------------------------------------------ *)
(** ** The similarity threshold of SettingsScreen.js *)

Module Threshold.

(** [Math.min(1.0, Math.max(0.1, parseFloat(text) || 0))]; the parsed
    number is [None] when [parseFloat] gives [NaN]. *)
Definition threshold_of (parsed : option Q) : Q :=
  Qmin 1 (Qmax (1 # 10) (match parsed with Some q => q | None => 0%Q end)).

End Threshold.

(* ================================================================== *)
(** * Properties of [makeRequest] *)

Module MakeRequestFacts.
Import MakeRequest.

Lemma count_attempts_app (l1 l2 : list event) :
  count_attempts (l1 ++ l2) = (count_attempts l1 + count_attempts l2)%nat.
Proof.
  induction l1 as [|[n|ms] t IH]; simpl; auto.
Qed.

Lemma wait_times_app (l1 l2 : list event) :
  wait_times (l1 ++ l2) = wait_times l1 ++ wait_times l2.
Proof.
  induction l1 as [|[n|ms] t IH]; simpl; rewrite ?IH; auto.
Qed.

Lemma count_fail_log (a : Z) (d : nat) : count_attempts (fail_log a d) = d.
Proof.
  revert a; induction d as [|d IH]; intros a; simpl; auto.
Qed.

Lemma wait_times_fail_log (a : Z) (d : nat) :
  wait_times (fail_log a d) = map backoff (zrange a d).
Proof.
  revert a; induction d as [|d IH]; intros a; simpl; rewrite ?IH; auto.
Qed.

Lemma fail_log_last (a : Z) (d : nat) (b : Z) :
  last (fail_log a d ++ [Attempt b]) (Wait 0) = Attempt b.
Proof.
  apply last_last.
Qed.

(** A 5xx reply, a timeout or a lost connection fails the attempt. *)
Lemma transient_failure_fails (timeout : Z) (r : reply) :
  transient_failure timeout r = true -> exists e, fetch_attempt timeout r = Err e.
Proof.
  destruct r as [|el st txt body]; simpl; [eauto|].
  intros H. destruct (timeout <=? el) eqn:Ht; [eauto|].
  simpl in H. unfold ok_status.
  apply andb_true_iff in H as [H1 H2].
  apply Z.leb_le in H1.
  replace (st <=? 299) with false by (symmetry; apply Z.leb_gt; lia).
  rewrite andb_false_r. simpl. eauto.
Qed.

Lemma is_5xx_fails (timeout : Z) (r : reply) :
  is_5xx r = true -> exists e, fetch_attempt timeout r = Err e.
Proof.
  intros H. apply transient_failure_fails.
  destruct r; simpl in *; [discriminate|]. rewrite H, orb_true_r. reflexivity.
Qed.

(** A 4xx reply within the timeout fails the attempt with
    [HTTP status: text]. *)
Lemma is_4xx_fails (timeout : Z) (el st : Z) (txt : string) (b : option json) :
  is_4xx timeout (Responded el st txt b) = true ->
  fetch_attempt timeout (Responded el st txt b) = Err (HttpError st txt).
Proof.
  simpl. intros H.
  apply andb_true_iff in H as [H H3]. apply andb_true_iff in H as [H1 H2].
  apply Z.ltb_lt in H1. apply Z.leb_le in H2. apply Z.leb_le in H3.
  replace (timeout <=? el) with false by (symmetry; apply Z.leb_gt; lia).
  unfold ok_status.
  replace (st <=? 299) with false by (symmetry; apply Z.leb_gt; lia).
  rewrite andb_false_r. reflexivity.
Qed.

Section Loop.

Variables (timeout retries : Z) (tr : transport).

Lemma run_finished (f : nat) (r : result) (log : list event) :
  run timeout retries tr f (Finished r, log) = (Finished r, log).
Proof.
  induction f; simpl; auto.
Qed.

Lemma run_add (f g : nat) (m : machine) : run timeout retries tr (f + g) m =
  run timeout retries tr g (run timeout retries tr f m).
Proof.
  revert m; induction f; intros m; simpl; auto.
Qed.

(** [d] failing attempts from attempt [a] on, all before the last one. *)
Lemma run_fails (d : nat) :
  forall a le log,
    a + Z.of_nat d <= retries ->
    (forall n, a <= n < a + Z.of_nat d -> exists e, fetch_attempt timeout (tr n) = Err e) ->
    exists le', run timeout retries tr d (Running a le, log) = (Running (a + Z.of_nat d) le', log ++ fail_log a d).
Proof.
  induction d as [|d IH]; intros a le log Hle Hfail.
  - exists le. simpl. rewrite Z.add_0_r, app_nil_r. reflexivity.
  - rewrite Nat2Z.inj_succ in *.
    destruct (Hfail a) as [e He]; [lia|].
    simpl. unfold MakeRequest.step.
    replace (a <=? retries) with true by (symmetry; apply Z.leb_le; lia).
    rewrite He.
    replace (a =? retries) with false by (symmetry; apply Z.eqb_neq; lia).
    destruct (IH (a + 1) (Some e) (log ++ [Attempt a; Wait (backoff a)]))
      as [le' Hrun]; [lia| intros n Hn; apply Hfail; lia |].
    exists le'. rewrite Hrun, <- app_assoc.
    replace (a + 1 + Z.of_nat d) with (a + Z.succ (Z.of_nat d)) by lia.
    reflexivity.
Qed.

(** When every one of the [retries] attempts fails, the error of the last
    attempt is surfaced after the full trace of failed attempts. *)
Lemma makeRequest_all_fail :
  1 <= retries ->
  (forall n, 1 <= n <= retries -> exists e, fetch_attempt timeout (tr n) = Err e) ->
  exists e,
    fetch_attempt timeout (tr retries) = Err e /\
    makeRequest timeout retries tr =
      Some (Err e, fail_log 1 (Z.to_nat (retries - 1)) ++ [Attempt retries]).
Proof.
  intros HR Hfail.
  destruct (run_fails (Z.to_nat (retries - 1)) 1 None [])
    as [le Hrun]; [lia | intros n Hn; apply Hfail; lia |].
  destruct (Hfail retries) as [e He]; [lia|].
  exists e. split; [exact He|].
  unfold makeRequest, init.
  replace (S (Z.to_nat retries)) with (Z.to_nat (retries - 1) + 2)%nat by lia.
  rewrite run_add, Hrun.
  replace (1 + Z.of_nat (Z.to_nat (retries - 1))) with retries by lia.
  simpl. unfold MakeRequest.step.
  rewrite Z.leb_refl, He, Z.eqb_refl.
  reflexivity.
Qed.

(** Every run settles within [retries + 1] iterations and makes at most
    [retries] attempts; iterating further changes nothing. *)
Lemma run_settles (m : nat) :
  forall a le log,
    (Z.to_nat (retries - a + 1) <= m)%nat ->
    exists r log',
      (forall f, (S (Z.to_nat (retries - a + 1)) <= f)%nat ->
         run timeout retries tr f (Running a le, log) = (Finished r, log ++ log')) /\
      (count_attempts log' <= Z.to_nat (retries - a + 1))%nat.
Proof.
  induction m as [|m IH]; intros a le log Hm.
  - exists (Err (match le with
                 | Some e => e
                 | None => ErrorMsg (JStr "Request failed after all retries")
                 end)), [].
    split; [|simpl; lia].
    intros f Hf. destruct f as [|f]; [lia|].
    simpl. unfold MakeRequest.step.
    replace (a <=? retries) with false by (symmetry; apply Z.leb_gt; lia).
    rewrite run_finished, app_nil_r. reflexivity.
  - destruct (a <=? retries) eqn:Ha.
    + apply Z.leb_le in Ha.
      destruct (fetch_attempt timeout (tr a)) as [data|e] eqn:Hf.
      * exists (Ok data), [Attempt a]. split; [|simpl; lia].
        intros f Hfuel. destruct f as [|f]; [lia|].
        simpl. unfold MakeRequest.step. rewrite (proj2 (Z.leb_le _ _) Ha), Hf.
        apply run_finished.
      * destruct (a =? retries) eqn:Hlast.
        -- exists (Err e), [Attempt a]. split; [|simpl; lia].
           intros f Hfuel. destruct f as [|f]; [lia|].
           simpl. unfold MakeRequest.step. rewrite (proj2 (Z.leb_le _ _) Ha), Hf, Hlast.
           apply run_finished.
        -- apply Z.eqb_neq in Hlast.
           destruct (IH (a + 1) (Some e) (log ++ [Attempt a; Wait (backoff a)]))
             as [r [log' [Hrun Hcount]]]; [lia|].
           exists r, ([Attempt a; Wait (backoff a)] ++ log'). split.
           ++ intros f Hfuel. destruct f as [|f]; [lia|].
              simpl. unfold MakeRequest.step.
              rewrite (proj2 (Z.leb_le _ _) Ha), Hf.
              rewrite (proj2 (Z.eqb_neq _ _) Hlast).
              rewrite Hrun by lia. rewrite <- app_assoc. reflexivity.
           ++ simpl. lia.
    + exists (Err (match le with
                   | Some e => e
                   | None => ErrorMsg (JStr "Request failed after all retries")
                   end)), [].
      split; [|simpl; lia].
      intros f Hf. destruct f as [|f]; [lia|].
      simpl. unfold MakeRequest.step. rewrite Ha.
      rewrite run_finished, app_nil_r. reflexivity.
Qed.

End Loop.

End MakeRequestFacts.

(* ================================================================== *)
(** * The runs of [makeRequest] *)

Module MakeRequestShape.
Import MakeRequest MakeRequestFacts.

Section Loop.

Variables (timeout retries : Z) (tr : transport).

(** From attempt [a <= retries] on, the loop fails [d] attempts, then
    settles with the outcome of attempt [a + d]; it settles on an error
    only at the last allowed attempt. *)
Lemma run_shape (m : nat) :
  forall a le log,
    a <= retries ->
    (Z.to_nat (retries - a + 1) <= m)%nat ->
    exists d : nat,
      a + Z.of_nat d <= retries /\
      (forall n, a <= n < a + Z.of_nat d -> exists e, fetch_attempt timeout (tr n) = Err e) /\
      (forall e, fetch_attempt timeout (tr (a + Z.of_nat d)) = Err e ->
                 a + Z.of_nat d = retries) /\
      (forall f, (S (Z.to_nat (retries - a + 1)) <= f)%nat ->
         run timeout retries tr f (Running a le, log) =
           (Finished (fetch_attempt timeout (tr (a + Z.of_nat d))),
            log ++ fail_log a d ++ [Attempt (a + Z.of_nat d)])).
Proof.
  induction m as [|m IH]; intros a le log Ha Hm; [lia|].
  destruct (fetch_attempt timeout (tr a)) as [data|e] eqn:Hf.
  - exists O. rewrite Z.add_0_r. split; [lia|]. split; [intros n Hn; lia|].
    split; [congruence|].
    intros f Hfuel. destruct f as [|f]; [lia|].
    simpl. unfold MakeRequest.step. rewrite (proj2 (Z.leb_le _ _) Ha), Hf.
    apply run_finished.
  - destruct (a =? retries) eqn:Hlast.
    + exists O. rewrite Z.add_0_r. split; [lia|]. split; [intros n Hn; lia|].
      split; [intros; apply Z.eqb_eq, Hlast|].
      intros f Hfuel. destruct f as [|f]; [lia|].
      simpl. unfold MakeRequest.step. rewrite (proj2 (Z.leb_le _ _) Ha), Hf, Hlast.
      apply run_finished.
    + apply Z.eqb_neq in Hlast.
      destruct (IH (a + 1) (Some e) (log ++ [Attempt a; Wait (backoff a)]))
        as [d [Hd [Hfails [Herr Hrun]]]]; [lia|lia|].
      exists (S d). rewrite Nat2Z.inj_succ.
      replace (a + Z.succ (Z.of_nat d)) with (a + 1 + Z.of_nat d) by lia.
      split; [lia|]. split.
      { intros n Hn. destruct (Z.eq_dec n a) as [->|Hne]; [eauto|].
        apply Hfails. lia. }
      split; [exact Herr|].
      intros f Hfuel. destruct f as [|f]; [lia|].
      simpl. unfold MakeRequest.step.
      rewrite (proj2 (Z.leb_le _ _) Ha), Hf, (proj2 (Z.eqb_neq _ _) Hlast).
      rewrite Hrun by lia. simpl. rewrite <- app_assoc. reflexivity.
Qed.

End Loop.

Lemma fetch_attempt_ok (timeout : Z) (r : reply) (data : json) :
  fetch_attempt timeout r = Ok data ->
  exists el st txt, r = Responded el st txt (Some data) /\ el < timeout /\
                    ok_status st = true.
Proof.
  unfold fetch_attempt. destruct r as [|el st txt body]; [discriminate|].
  destruct (timeout <=? el) eqn:Hel; [discriminate|].
  destruct (ok_status st) eqn:Hst; [|discriminate].
  destruct body as [j|]; [|discriminate]. intros [= <-].
  exists el, st, txt. apply Z.leb_gt in Hel. auto.
Qed.

(** A call of [makeRequest] that resolves returns the decoded body of a
    2xx response that arrived in time at its last attempt. *)
Lemma makeRequest_ok_attempt (timeout R : Z) (tr : transport) (data : json)
    (log : list event) :
  makeRequest timeout R tr = Some (Ok data, log) ->
  exists n el st txt,
    1 <= n <= R /\ Z.of_nat (count_attempts log) = n /\
    tr n = Responded el st txt (Some data) /\ el < timeout /\ ok_status st = true.
Proof.
  destruct (Z_le_gt_dec R 0) as [HR|HR].
  - unfold makeRequest, init. simpl. unfold MakeRequest.step.
    replace (1 <=? R) with false by (symmetry; apply Z.leb_gt; lia).
    rewrite run_finished. discriminate.
  - destruct (run_shape timeout R tr (Z.to_nat (R - 1 + 1)) 1 None [])
      as [d [Hd [_ [_ Hrun]]]]; [lia|lia|].
    replace (R - 1 + 1) with R in Hrun by lia.
    unfold makeRequest, init. rewrite Hrun by lia. intros [= Hf <-].
    destruct (fetch_attempt_ok _ _ _ Hf) as [el [st [txt [Htr [Hel Hst]]]]].
    exists (1 + Z.of_nat d), el, st, txt.
    split; [lia|]. split; [|auto].
    rewrite count_attempts_app, count_fail_log, Nat2Z.inj_add.
    cbn [count_attempts]. lia.
Qed.

End MakeRequestShape.

(* ================================================================== *)
(** * The retry policy of [makeRequest] *)

Module RequestClaims.
Import MakeRequest MakeRequestFacts.

Lemma is_4xx_fails_any (timeout : Z) (r : reply) :
  is_4xx timeout r = true -> exists e, fetch_attempt timeout r = Err e.
Proof.
  destruct r as [|el st txt b]; [discriminate|].
  intros H. exists (HttpError st txt). apply is_4xx_fails, H.
Qed.

(** C1 (counterexample): a 404 on the first of 3 allowed attempts does not
    end the call after one attempt: [makeRequest] waits 1000 ms and tries
    again, and a 2xx on the second attempt is returned as success. *)
Lemma makeRequest_4xx_not_final :
  ~ (forall (timeout R : Z) (tr : transport) el st txt b,
       1 <= R -> tr 1 = Responded el st txt b -> is_4xx timeout (tr 1) = true ->
       exists e log,
         makeRequest timeout R tr = Some (Err e, log) /\ count_attempts log = 1%nat).
Proof.
  intros H.
  destruct (H 15000 3
              (fun n => if n =? 1
                        then Responded 120 404 "Not Found" (Some (JObj [("detail", JStr "Not Found")]))
                        else Responded 80 200 "[]" (Some (JArr [])))
              120 404 "Not Found" (Some (JObj [("detail", JStr "Not Found")])))
    as [e [log [Hreq _]]]; [lia | reflexivity | reflexivity |].
  vm_compute in Hreq. discriminate Hreq.
Qed.

(** C1 (amended): [makeRequest] does not single out 4xx responses.  A 4xx
    reply throws [Error("HTTP <status>: <text>")] inside the attempt and is
    retried like any failure: when all [R >= 1] attempts get a 4xx response,
    the call makes exactly [R] attempts, with the backoff waits between
    them, and surfaces the [HTTP <status>: <text>] error of attempt [R]. *)
Theorem makeRequest_4xx_retried (timeout R : Z) (tr : transport) :
  1 <= R ->
  (forall n, 1 <= n <= R -> is_4xx timeout (tr n) = true) ->
  forall el st txt b, tr R = Responded el st txt b ->
  exists log,
    makeRequest timeout R tr = Some (Err (HttpError st txt), log) /\
    Z.of_nat (count_attempts log) = R /\
    wait_times log = map backoff (zrange 1 (Z.to_nat (R - 1))).
Proof.
  intros HR H4 el st txt b HtrR.
  destruct (makeRequest_all_fail timeout R tr HR) as [e [He Hreq]].
  { intros n Hn. apply is_4xx_fails_any, H4, Hn. }
  assert (Hst : e = HttpError st txt).
  { rewrite HtrR in He. rewrite is_4xx_fails in He; [congruence|].
    rewrite <- HtrR. apply H4. lia. }
  subst e. eexists. split; [exact Hreq|]. split.
  - rewrite count_attempts_app, count_fail_log. simpl. lia.
  - rewrite wait_times_app, wait_times_fail_log. simpl. apply app_nil_r.
Qed.

(** C2: when every one of the [R >= 1] attempts fails with a 5xx response,
    a timeout or a lost connection, [makeRequest] surfaces the error of the
    last attempt after exactly [R] attempts; attempt [n < R] is followed by a
    wait of [min(1000 * 2^(n-1), 5000)] ms, the last attempt by none, and the
    waits add up to the sum of these delays for [n = 1 .. R-1]. *)
Theorem makeRequest_exhausts_retries (timeout R : Z) (tr : transport) :
  1 <= R ->
  (forall n, 1 <= n <= R -> transient_failure timeout (tr n) = true) ->
  exists e log,
    makeRequest timeout R tr = Some (Err e, log) /\
    fetch_attempt timeout (tr R) = Err e /\
    Z.of_nat (count_attempts log) = R /\
    wait_times log =
      map (fun n => Z.min (1000 * 2 ^ (n - 1)) 5000) (zrange 1 (Z.to_nat (R - 1))) /\
    last log (Wait 0) = Attempt R /\
    sum_Z (wait_times log) =
      sum_Z (map (fun n => Z.min (1000 * 2 ^ (n - 1)) 5000) (zrange 1 (Z.to_nat (R - 1)))).
Proof.
  intros HR Hfail.
  destruct (makeRequest_all_fail timeout R tr HR) as [e [He Hreq]].
  { intros n Hn. apply transient_failure_fails, Hfail, Hn. }
  assert (Hw : wait_times (fail_log 1 (Z.to_nat (R - 1)) ++ [Attempt R]) =
               map (fun n => Z.min (1000 * 2 ^ (n - 1)) 5000) (zrange 1 (Z.to_nat (R - 1)))).
  { rewrite wait_times_app, wait_times_fail_log. simpl. apply app_nil_r. }
  exists e, (fail_log 1 (Z.to_nat (R - 1)) ++ [Attempt R]).
  repeat split; auto.
  - rewrite count_attempts_app, count_fail_log. simpl. lia.
  - apply fail_log_last.
  - rewrite Hw. reflexivity.
Qed.

(** C3: with 5xx responses on attempts [1 .. k-1] and a 2xx response with a
    JSON body on attempt [k <= R] (within the timeout), [makeRequest]
    returns the decoded body after exactly [k] attempts. *)
Theorem makeRequest_succeeds_on_attempt_k (timeout R k : Z) (tr : transport)
    (el st : Z) (txt : string) (data : json) :
  1 <= k <= R ->
  (forall n, 1 <= n < k -> is_5xx (tr n) = true) ->
  tr k = Responded el st txt (Some data) ->
  el < timeout ->
  ok_status st = true ->
  exists log,
    makeRequest timeout R tr = Some (Ok data, log) /\
    Z.of_nat (count_attempts log) = k.
Proof.
  intros Hk H5 Htr Hel Hst.
  destruct (run_fails timeout R tr (Z.to_nat (k - 1)) 1 None [])
    as [le Hrun]; [lia | intros n Hn; apply is_5xx_fails, H5; lia |].
  exists (fail_log 1 (Z.to_nat (k - 1)) ++ [Attempt k]). split.
  - unfold makeRequest, init.
    replace (S (Z.to_nat R)) with (Z.to_nat (k - 1) + S (Z.to_nat (R - k + 1)))%nat by lia.
    rewrite run_add, Hrun.
    replace (1 + Z.of_nat (Z.to_nat (k - 1))) with k by lia.
    simpl. unfold MakeRequest.step.
    replace (k <=? R) with true by (symmetry; apply Z.leb_le; lia).
    rewrite Htr. simpl.
    replace (timeout <=? el) with false by (symmetry; apply Z.leb_gt; lia).
    rewrite Hst. simpl. rewrite run_finished. reflexivity.
  - rewrite count_attempts_app, count_fail_log. simpl. lia.
Qed.

(** C4: for every retry count [R] and every sequence of transport
    outcomes, [makeRequest] settles with a success or an error, makes at
    most [R] attempts, and its loop stops changing after [R + 1]
    iterations: it never retries indefinitely. *)
Theorem makeRequest_bounded (timeout R : Z) (tr : transport) :
  exists r log,
    makeRequest timeout R tr = Some (r, log) /\
    (count_attempts log <= Z.to_nat R)%nat /\
    forall f, (S (Z.to_nat R) <= f)%nat -> run timeout R tr f init = (Finished r, log).
Proof.
  destruct (run_settles timeout R tr (Z.to_nat (R - 1 + 1)) 1 None [])
    as [r [log [Hrun Hcount]]]; [lia|].
  replace (R - 1 + 1) with R in * by lia.
  exists r, log. split; [|split].
  - unfold makeRequest, init. rewrite Hrun by lia. reflexivity.
  - exact Hcount.
  - intros f Hf. unfold init. apply Hrun, Hf.
Qed.

End RequestClaims.

(* ================================================================== *)
(** * The student code field *)

Module CodigoFacts.
Import Codigo.

Lemma upper_char_not_lower (c : ascii) : is_lower (upper_char c) = false.
Proof.
  destruct c as [[] [] [] [] [] [] [] []]; reflexivity.
Qed.

Lemma upper_char_idem (c : ascii) : upper_char (upper_char c) = upper_char c.
Proof.
  destruct c as [[] [] [] [] [] [] [] []]; reflexivity.
Qed.

Lemma is_space_upper_char (c : ascii) : is_space (upper_char c) = is_space c.
Proof.
  destruct c as [[] [] [] [] [] [] [] []]; reflexivity.
Qed.

Lemma trim_start_upper (s : list ascii) :
  trim_start (map upper_char s) = map upper_char (trim_start s).
Proof.
  induction s as [|c t IH]; simpl; auto.
  rewrite is_space_upper_char. destruct (is_space c); auto.
Qed.

(** Trimming and upper casing commute. *)
Lemma trim_toUpperCase (s : list ascii) : trim (toUpperCase s) = toUpperCase (trim s).
Proof.
  unfold trim, toUpperCase.
  rewrite trim_start_upper, <- map_rev, trim_start_upper, map_rev. reflexivity.
Qed.

Lemma toUpperCase_idem (s : list ascii) : toUpperCase (toUpperCase s) = toUpperCase s.
Proof.
  unfold toUpperCase. rewrite map_map. apply map_ext, upper_char_idem.
Qed.

Lemma toUpperCase_no_lower (s : list ascii) :
  forallb (fun ch => negb (is_lower ch)) (toUpperCase s) = true.
Proof.
  induction s as [|c t IH]; simpl; auto.
  rewrite upper_char_not_lower. exact IH.
Qed.

Lemma match_nonempty_some {A B : Type} (l : list A) (x : option B) (c : B) :
  match l with [] => None | _ :: _ => x end = Some c -> x = Some c.
Proof.
  destruct l; [discriminate|auto].
Qed.

(** C8 (counterexample): on CreateStudentScreen the operator input
    [" abc123"] is sent as [" ABC123"], not as the trimmed, uppercased
    ["ABC123"]. *)
Lemma createStudent_codigo_untrimmed :
  ~ (forall sc input c, sent_codigo sc input = Some c -> c = toUpperCase (trim input)).
Proof.
  intros H.
  specialize (H CreateStudentScreen (list_ascii_of_string " abc123")
                (list_ascii_of_string " ABC123") eq_refl).
  vm_compute in H. discriminate H.
Qed.

(** C8 (amended): the [codigo] field sent on a create student submission
    is in upper case: it has no lower case letter and [toUpperCase] leaves
    it unchanged.  On AddStudentScreen it is the trimmed, uppercased
    operator input. *)
Theorem sent_codigo_uppercase (sc : screen) (input c : list ascii) :
  sent_codigo sc input = Some c ->
  forallb (fun ch => negb (is_lower ch)) c = true /\
  toUpperCase c = c /\
  (sc = AddStudentScreen -> c = toUpperCase (trim input)).
Proof.
  unfold sent_codigo, typed_state.
  destruct sc; intros Hc.
  - apply match_nonempty_some in Hc. injection Hc as <-.
    rewrite trim_toUpperCase, toUpperCase_idem.
    split; [apply toUpperCase_no_lower|]. split; [apply toUpperCase_idem|].
    intros _. reflexivity.
  - apply match_nonempty_some in Hc.
    destruct (length (toUpperCase input) <? 6)%nat; [discriminate|].
    injection Hc as <-.
    split; [apply toUpperCase_no_lower|]. split; [apply toUpperCase_idem|].
    discriminate.
Qed.

End CodigoFacts.

(* ================================================================== *)
(** * The API services *)

Module ServiceClaims.

Lemma or_else_truthy (x : option json) (d w : json) :
  x = Some w -> truthy w = true -> or_else x d = w.
Proof.
  intros -> Hw. simpl. rewrite Hw. reflexivity.
Qed.

Lemma or_else_falsy (x : option json) (d : json) :
  (forall w, x = Some w -> truthy w = false) -> or_else x d = d.
Proof.
  destruct x as [w|]; simpl; auto.
  intros H. rewrite (H w eq_refl). reflexivity.
Qed.

Lemma or_else_none (x : option json) (d : json) : x = None -> or_else x d = d.
Proof.
  intros ->. reflexivity.
Qed.

(** C5 (amended): when the statistics request fails (no response, no
    response within the timeout, or a status outside 2xx), the statistics
    operations of the [ApiService] class (axios, 120000 ms) and of the menu
    screen's [apiService] (fetch, 15000 ms) return the zeroed statistics
    object instead of an error. *)
Theorem getRecognitionStats_defaults (tr : transport) :
  (fetch_failure ApiService.client_timeout (tr 1) = true ->
     fst (ApiService.getRecognitionStats tr) = Ok ApiService.stats_default) /\
  (fetch_failure 15000 (tr 1) = true ->
     fst (MenuApi.getRecognitionStats tr) = Ok ApiService.stats_default).
Proof.
  unfold ApiService.getRecognitionStats, MenuApi.getRecognitionStats,
    Axios.send, fetchWithTimeout, fetch_failure.
  destruct (tr 1) as [|el st txt body]; [split; reflexivity|].
  split; intros H.
  - destruct (ApiService.client_timeout <=? el); [reflexivity|].
    simpl in H. destruct (ok_status st); [discriminate|].
    destruct (st <? 500); reflexivity.
  - destruct (15000 <=? el); [reflexivity|].
    simpl in H. destruct (ok_status st); [discriminate|reflexivity].
Qed.

(** C5 (counterexample): the older [apiService.js] does not substitute the
    zeroed statistics: with no connection its [getRecognitionStats] rejects
    with the axios network error. *)
Lemma getRecognitionStats_old_rethrows :
  ~ (forall tr : transport,
       fetch_failure ApiServiceOld.client_timeout (tr 1) = true ->
       fst (ApiServiceOld.getRecognitionStats tr) = Ok ApiService.stats_default).
Proof.
  intros H. specialize (H (fun _ => NoConnection) eq_refl).
  vm_compute in H. discriminate H.
Qed.

(** C6 (counterexample): a 404 response whose body carries a [detail]
    message surfaces the generic ["Recurso no encontrado"], not the
    [detail] message. *)
Lemma handleApiError_404_ignores_detail :
  ~ (forall code st data dm d,
       400 <= st <= 499 ->
       get_opt (Some data) "detail" = Some (JStr d) -> d <> "" ->
       ApiService.handleApiError (AxiosError code (Some (st, data))) dm = ErrorMsg (JStr d)).
Proof.
  intros H.
  specialize (H (Some "ERR_BAD_REQUEST") 404
                (JObj [("detail", JStr "Estudiante no encontrado")])
                "No se pudo obtener el estudiante" "Estudiante no encontrado").
  assert (Hc : ApiService.handleApiError
                 (AxiosError (Some "ERR_BAD_REQUEST")
                    (Some (404, JObj [("detail", JStr "Estudiante no encontrado")])))
                 "No se pudo obtener el estudiante"
               = ErrorMsg (JStr "Recurso no encontrado")) by reflexivity.
  rewrite H in Hc; [discriminate | lia | reflexivity | discriminate].
Qed.

(** C6 (amended): for a 4xx response, [handleApiError] throws the generic
    ["Recurso no encontrado"] for 404 and ["Error de validación de datos"]
    for 422 whatever the body says; for any other 4xx status it throws the
    body's [detail] when that is present and truthy, and otherwise
    ["Datos inválidos"] for 400 and the caller's default message for the
    rest. *)
Theorem handleApiError_4xx (code : option string) (st : Z) (data : json) (dm : string) :
  400 <= st <= 499 ->
  ApiService.handleApiError (AxiosError code (Some (st, data))) dm =
    ErrorMsg (if st =? 404 then JStr "Recurso no encontrado"
              else if st =? 422 then JStr "Error de validación de datos"
              else or_else (get_opt (Some data) "detail")
                     (JStr (if st =? 400 then "Datos inválidos" else dm))).
Proof.
  intros Hst. unfold ApiService.handleApiError.
  destruct (st =? 400) eqn:H400.
  - apply Z.eqb_eq in H400. subst st. reflexivity.
  - destruct (st =? 404); [reflexivity|].
    destruct (st =? 422); [reflexivity|].
    replace (500 <=? st) with false by (symmetry; apply Z.leb_gt; lia).
    reflexivity.
Qed.

(** C7 (counterexample): the older [apiService.js] uses its client's
    30000 ms timeout for recognition, so a 2xx answer after 90 s is not
    returned at all: the call rejects with [ECONNABORTED]. *)
Lemma recognizeStudent_old_times_out :
  ~ (forall (tr : transport) el st txt data,
       tr 1 = Responded el st txt (Some data) -> el < 120000 -> ok_status st = true ->
       exists r, fst (ApiServiceOld.recognizeStudent tr) = inl r).
Proof.
  intros H.
  destruct (H (fun _ => Responded 90000 200 "match" (Some (JObj [("found", JBool true)])))
              90000 200 "match" (JObj [("found", JBool true)]) eq_refl ltac:(lia) eq_refl)
    as [r Hr].
  vm_compute in Hr. discriminate Hr.
Qed.

(** C7 (amended): in the [ApiService] class (services/ApiService.js), a
    recognize call answered with a 2xx JSON payload within the 120000 ms
    budget returns that payload unmodified, after a single request. *)
Theorem recognizeStudent_returns_payload (tr : transport) (el st : Z) (txt : string)
    (data : json) :
  tr 1 = Responded el st txt (Some data) ->
  el < 120000 ->
  ok_status st = true ->
  ApiService.recognizeStudent tr = (Ok data, [Attempt 1]).
Proof.
  intros Htr Hel Hst.
  unfold ApiService.recognizeStudent, Axios.send. rewrite Htr.
  replace (120000 <=? el) with false by (symmetry; apply Z.leb_gt; lia).
  rewrite Hst. reflexivity.
Qed.

(** C9: a [getStudents] call that completes successfully returns an array,
    both in StudentsListScreen.tsx (through [makeRequest]) and in the menu
    screen (AppNavigator.js).  The result comes from the JSON body of a 2xx
    response received in time: that body itself when it is an array, and
    [[]] when it is not. *)
Theorem getStudents_returns_array (tr : transport) :
  (forall v log, StudentsListApi.getStudents tr = Some (Ok v, log) ->
     exists n el st txt body,
       1 <= n <= 5 /\ Z.of_nat (count_attempts log) = n /\
       tr n = Responded el st txt (Some body) /\ el < 20000 /\ ok_status st = true /\
       (exists items, v = JArr items) /\
       (is_array body = true -> v = body) /\
       (is_array body = false -> v = JArr [])) /\
  (forall v log, MenuApi.getStudents tr = (Ok v, log) ->
     exists el st txt body,
       log = [Attempt 1] /\
       tr 1 = Responded el st txt (Some body) /\ el < 15000 /\ ok_status st = true /\
       (exists items, v = JArr items) /\
       (is_array body = true -> v = body) /\
       (is_array body = false -> v = JArr [])).
Proof.
  split; intros v log H.
  - unfold StudentsListApi.getStudents in H.
    destruct (MakeRequest.makeRequest 20000 5 tr) as [[[students|e] l]|] eqn:Hm;
      try discriminate.
    injection H as <- <-.
    destruct (MakeRequestShape.makeRequest_ok_attempt _ _ _ _ _ Hm)
      as [n [el [st [txt [Hn [Hc [Htr [Hel Hst]]]]]]]].
    exists n, el, st, txt, students. do 5 (split; [assumption|]).
    destruct students; simpl;
      (split; [eexists; reflexivity|split; intros Ha; first [reflexivity|discriminate]]).
  - unfold MenuApi.getStudents in H.
    destruct (tr 1) as [|el st txt body] eqn:Htr; [discriminate|].
    simpl in H. destruct (15000 <=? el) eqn:Hel; [discriminate|].
    apply Z.leb_gt in Hel.
    destruct (ok_status st) eqn:Hst; [|discriminate].
    destruct body as [students|]; [|discriminate].
    injection H as <- <-.
    exists el, st, txt, students. do 4 (split; [reflexivity || assumption|]).
    destruct students; simpl;
      (split; [eexists; reflexivity|split; intros Ha; first [reflexivity|discriminate]]).
Qed.

(** C10: every result returned by the older transforming [recognizeStudent]
    has [success] equal to [found]; [similarity], [confidence] and
    [message] are the backend's values when these are present and truthy,
    and otherwise [0], ['Baja'] and ['Procesado correctamente']; [student]
    is [null] when the backend sends none. *)
Theorem recognizeStudent_old_invariant (tr : transport) (r : ApiServiceOld.recognition)
    (log : list event) :
  ApiServiceOld.recognizeStudent tr = (inl r, log) ->
  exists data,
    fst (Axios.send ApiServiceOld.client_timeout tr 1) = Ok data /\
    ApiServiceOld.success r = ApiServiceOld.found r /\
    (forall w, get data "similarity" = Some w -> truthy w = true ->
       ApiServiceOld.similarity r = w) /\
    ((forall w, get data "similarity" = Some w -> truthy w = false) ->
       ApiServiceOld.similarity r = JNum 0) /\
    (forall w, get data "confidence" = Some w -> truthy w = true ->
       ApiServiceOld.confidence r = w) /\
    ((forall w, get data "confidence" = Some w -> truthy w = false) ->
       ApiServiceOld.confidence r = JStr "Baja") /\
    (forall w, get data "message" = Some w -> truthy w = true ->
       ApiServiceOld.message r = w) /\
    ((forall w, get data "message" = Some w -> truthy w = false) ->
       ApiServiceOld.message r = JStr "Procesado correctamente") /\
    (get data "student" = None -> ApiServiceOld.student r = JNull).
Proof.
  unfold ApiServiceOld.recognizeStudent.
  destruct (Axios.send ApiServiceOld.client_timeout tr 1) as [res l].
  destruct res as [data|e]; [|discriminate].
  destruct (ApiServiceOld.transform data) as [res|] eqn:Ht; [|discriminate].
  intros H. injection H as <- _.
  exists data. split; [reflexivity|].
  assert (Hr : res = {|
      ApiServiceOld.success := or_else (get data "found") (JBool false);
      ApiServiceOld.found := or_else (get data "found") (JBool false);
      ApiServiceOld.student := or_else (get data "student") JNull;
      ApiServiceOld.similarity := or_else (get data "similarity") (JNum 0);
      ApiServiceOld.confidence := or_else (get data "confidence") (JStr "Baja");
      ApiServiceOld.message :=
        or_else (get data "message") (JStr "Procesado correctamente") |}).
  { unfold ApiServiceOld.transform in Ht.
    destruct data; try discriminate Ht; injection Ht as <-; reflexivity. }
  subst res. cbn -[or_else get].
  repeat split; intros;
    eauto using or_else_truthy, or_else_falsy, or_else_none.
Qed.

End ServiceClaims.

(* ================================================================== *)
(** * The theorems at concrete inputs *)

Module Witnesses.
Import MakeRequest RequestClaims CodigoFacts ServiceClaims.

(** Three 404 responses with 3 allowed attempts. *)
Lemma makeRequest_4xx_retried_witness :
  exists log,
    makeRequest 15000 3 (fun _ => Responded 50 404 "Not Found" None) =
      Some (Err (HttpError 404 "Not Found"), log) /\
    Z.of_nat (count_attempts log) = 3 /\
    wait_times log = map backoff (zrange 1 (Z.to_nat (3 - 1))).
Proof.
  exact (makeRequest_4xx_retried 15000 3 (fun _ => Responded 50 404 "Not Found" None)
           ltac:(lia) (fun n _ => eq_refl) 50 404 "Not Found" None eq_refl).
Defined.

(** Four 503 responses arriving after the 15000 ms budget. *)
Lemma makeRequest_exhausts_retries_witness :
  exists e log,
    makeRequest 15000 4 (fun _ => Responded 20000 503 "down" None) = Some (Err e, log) /\
    fetch_attempt 15000 (Responded 20000 503 "down" None) = Err e /\
    Z.of_nat (count_attempts log) = 4 /\
    wait_times log =
      map (fun n => Z.min (1000 * 2 ^ (n - 1)) 5000) (zrange 1 (Z.to_nat (4 - 1))) /\
    last log (Wait 0) = Attempt 4 /\
    sum_Z (wait_times log) =
      sum_Z (map (fun n => Z.min (1000 * 2 ^ (n - 1)) 5000) (zrange 1 (Z.to_nat (4 - 1)))).
Proof.
  exact (makeRequest_exhausts_retries 15000 4 (fun _ => Responded 20000 503 "down" None)
           ltac:(lia) (fun n _ => eq_refl)).
Defined.

(** Two 503 responses, then a 200 with an empty array, with 5 allowed
    attempts. *)
Lemma makeRequest_succeeds_on_attempt_k_witness :
  exists log,
    makeRequest 15000 5
      (fun n => if n <? 3 then Responded 10 503 "down" None
                else Responded 10 200 "[]" (Some (JArr []))) = Some (Ok (JArr []), log) /\
    Z.of_nat (count_attempts log) = 3.
Proof.
  apply (makeRequest_succeeds_on_attempt_k 15000 5 3
           (fun n => if n <? 3 then Responded 10 503 "down" None
                     else Responded 10 200 "[]" (Some (JArr [])))
           10 200 "[]" (JArr [])).
  - lia.
  - intros n Hn. replace (n <? 3) with true by (symmetry; apply Z.ltb_lt; lia).
    reflexivity.
  - reflexivity.
  - lia.
  - reflexivity.
Defined.

(** No connection at all, with 2 allowed attempts. *)
Lemma makeRequest_bounded_witness :
  exists r log,
    makeRequest 10000 2 (fun _ => NoConnection) = Some (r, log) /\
    (count_attempts log <= Z.to_nat 2)%nat /\
    forall f, (S (Z.to_nat 2) <= f)%nat ->
      run 10000 2 (fun _ => NoConnection) f init = (Finished r, log).
Proof.
  exact (makeRequest_bounded 10000 2 (fun _ => NoConnection)).
Defined.

(** The code " abc123 " typed on AddStudentScreen. *)
Lemma sent_codigo_uppercase_witness :
  Codigo.sent_codigo Codigo.AddStudentScreen (list_ascii_of_string " abc123 ") =
    Some (list_ascii_of_string "ABC123") /\
  list_ascii_of_string "ABC123" =
    Codigo.toUpperCase (Codigo.trim (list_ascii_of_string " abc123 ")).
Proof.
  split; [vm_compute; reflexivity|].
  exact (proj2 (proj2 (sent_codigo_uppercase Codigo.AddStudentScreen
                         (list_ascii_of_string " abc123 ") (list_ascii_of_string "ABC123")
                         ltac:(vm_compute; reflexivity))) eq_refl).
Defined.

(** The statistics server is unreachable. *)
Lemma getRecognitionStats_defaults_witness :
  fst (ApiService.getRecognitionStats (fun _ => NoConnection)) = Ok ApiService.stats_default /\
  fst (MenuApi.getRecognitionStats (fun _ => NoConnection)) = Ok ApiService.stats_default.
Proof.
  split.
  - exact (proj1 (getRecognitionStats_defaults (fun _ => NoConnection)) eq_refl).
  - exact (proj2 (getRecognitionStats_defaults (fun _ => NoConnection)) eq_refl).
Defined.

(** A 404 whose body carries a [detail]. *)
Lemma handleApiError_4xx_witness :
  ApiService.handleApiError
    (AxiosError (Some "ERR_BAD_REQUEST")
       (Some (404, JObj [("detail", JStr "Estudiante no encontrado")])))
    "No se pudo obtener el estudiante" = ErrorMsg (JStr "Recurso no encontrado").
Proof.
  exact (handleApiError_4xx (Some "ERR_BAD_REQUEST") 404
           (JObj [("detail", JStr "Estudiante no encontrado")])
           "No se pudo obtener el estudiante" ltac:(lia)).
Defined.

(** The server answers after 90 s with a match. *)
Lemma recognizeStudent_returns_payload_witness :
  ApiService.recognizeStudent
    (fun _ => Responded 90000 200 "match"
                (Some (JObj [("found", JBool true); ("student", JObj [("id", JNum 7)]);
                             ("similarity", JNum (87 # 100)); ("confidence", JStr "high")]))) =
  (Ok (JObj [("found", JBool true); ("student", JObj [("id", JNum 7)]);
             ("similarity", JNum (87 # 100)); ("confidence", JStr "high")]), [Attempt 1]).
Proof.
  exact (recognizeStudent_returns_payload
           (fun _ => Responded 90000 200 "match"
                (Some (JObj [("found", JBool true); ("student", JObj [("id", JNum 7)]);
                             ("similarity", JNum (87 # 100)); ("confidence", JStr "high")])))
           90000 200 "match"
           (JObj [("found", JBool true); ("student", JObj [("id", JNum 7)]);
                  ("similarity", JNum (87 # 100)); ("confidence", JStr "high")])
           eq_refl ltac:(lia) eq_refl).
Defined.

(** A 2xx body that is an object, not an array. *)
Lemma getStudents_returns_array_witness :
  let tr := fun _ : Z => Responded 10 200 "{}" (Some (JObj [])) in
  StudentsListApi.getStudents tr = Some (Ok (JArr []), [Attempt 1]) /\
  MenuApi.getStudents tr = (Ok (JArr []), [Attempt 1]) /\
  (exists n el st txt body,
     1 <= n <= 5 /\ Z.of_nat (count_attempts [Attempt 1]) = n /\
     tr n = Responded el st txt (Some body) /\ el < 20000 /\ ok_status st = true /\
     (exists items, JArr [] = JArr items) /\
     (is_array body = true -> JArr [] = body) /\
     (is_array body = false -> JArr [] = JArr [])).
Proof.
  intros tr.
  assert (H1 : StudentsListApi.getStudents tr = Some (Ok (JArr []), [Attempt 1]))
    by (vm_compute; reflexivity).
  split; [exact H1|]. split; [vm_compute; reflexivity|].
  exact (proj1 (getStudents_returns_array tr) (JArr []) [Attempt 1] H1).
Defined.

(** A backend answer without similarity, confidence, message or student. *)
Lemma recognizeStudent_old_invariant_witness :
  exists r,
    ApiServiceOld.recognizeStudent
      (fun _ => Responded 10 200 "found" (Some (JObj [("found", JBool true)]))) =
      (inl r, [Attempt 1]) /\
    ApiServiceOld.success r = ApiServiceOld.found r /\
    ApiServiceOld.student r = JNull.
Proof.
  eexists. split; [vm_compute; reflexivity|].
  destruct (recognizeStudent_old_invariant
              (fun _ => Responded 10 200 "found" (Some (JObj [("found", JBool true)])))
              _ [Attempt 1] ltac:(vm_compute; reflexivity))
    as [data [Hd [Hs [_ [_ [_ [_ [_ [_ Hst]]]]]]]]].
  split; [exact Hs|].
  apply Hst. vm_compute in Hd. injection Hd as <-. reflexivity.
Defined.

End Witnesses.

(* ================================================================== *)
(** * Further properties of [makeRequest] *)

Module RequestShape.
Import MakeRequest MakeRequestFacts MakeRequestShape.

(** Every call of [makeRequest] is one of two runs.  With [retries <= 0]
    it issues no request and rejects with ["Request failed after all
    retries"].  Otherwise it fails some [d] attempts, each followed by its
    backoff wait, and then returns the outcome of attempt [d + 1]: the
    decoded body, or an error, and an error only when [d + 1 = retries]. *)
Theorem makeRequest_shape (timeout R : Z) (tr : transport) :
  exists r log,
    makeRequest timeout R tr = Some (r, log) /\
    ((R <= 0 /\ log = [] /\
      r = Err (ErrorMsg (JStr "Request failed after all retries"))) \/
     (exists d : nat,
        1 + Z.of_nat d <= R /\
        log = fail_log 1 d ++ [Attempt (1 + Z.of_nat d)] /\
        (forall n, 1 <= n <= Z.of_nat d -> exists e, fetch_attempt timeout (tr n) = Err e) /\
        r = fetch_attempt timeout (tr (1 + Z.of_nat d)) /\
        (forall e, r = Err e -> 1 + Z.of_nat d = R))).
Proof.
  destruct (Z_le_gt_dec R 0) as [HR|HR].
  - eexists _, []. split; [|left; split; [exact HR|split; reflexivity]].
    unfold makeRequest, init. simpl. unfold MakeRequest.step.
    replace (1 <=? R) with false by (symmetry; apply Z.leb_gt; lia).
    rewrite run_finished. reflexivity.
  - destruct (run_shape timeout R tr (Z.to_nat (R - 1 + 1)) 1 None [])
      as [d [Hd [Hfails [Herr Hrun]]]]; [lia|lia|].
    replace (R - 1 + 1) with R in Hrun by lia.
    eexists _, _. split.
    + unfold makeRequest, init. rewrite Hrun by lia. reflexivity.
    + right. exists d. split; [lia|]. split; [reflexivity|].
      split; [intros n Hn; apply Hfails; lia|]. split; [reflexivity|].
      intros e He. apply (Herr e), He.
Qed.

Lemma backoff_bounds (n : Z) : 1 <= n -> 1000 <= backoff n <= 5000.
Proof.
  intros Hn. unfold backoff.
  assert (1 <= 2 ^ (n - 1)).
  { assert (0 < 2 ^ (n - 1)) by (apply Z.pow_pos_nonneg; lia). lia. }
  lia.
Qed.

Lemma zrange_ge (a : Z) (d : nat) (n : Z) : In n (zrange a d) -> a <= n.
Proof.
  revert a; induction d as [|d IH]; intros a; simpl; [tauto|].
  intros [->|H]; [lia|]. apply IH in H. lia.
Qed.

Lemma sum_Z_bound (l : list Z) :
  Forall (fun w => w <= 5000) l -> sum_Z l <= 5000 * Z.of_nat (length l).
Proof.
  induction 1 as [|w l Hw _ IH]; simpl; [lia|]. unfold sum_Z in *. simpl. lia.
Qed.

(** The waits of any call are determined by its number of attempts [k]:
    they are [backoff 1 .. backoff (k - 1)], each between 1000 and 5000
    ms, so a call never waits more than [5000 * (k - 1)] ms in total. *)
Theorem makeRequest_waits_bounded (timeout R : Z) (tr : transport) (r : result)
    (log : list event) :
  makeRequest timeout R tr = Some (r, log) ->
  wait_times log = map backoff (zrange 1 (count_attempts log - 1)) /\
  Forall (fun w => 1000 <= w <= 5000) (wait_times log) /\
  sum_Z (wait_times log) <= 5000 * Z.of_nat (count_attempts log - 1).
Proof.
  intros Hreq.
  destruct (makeRequest_shape timeout R tr) as [r' [log' [Hreq' Hshape]]].
  rewrite Hreq in Hreq'. injection Hreq' as <- <-.
  assert (Hw : wait_times log = map backoff (zrange 1 (count_attempts log - 1))).
  { destruct Hshape as [[_ [-> _]]|[d [_ [-> _]]]]; [reflexivity|].
    rewrite count_attempts_app, count_fail_log, wait_times_app, wait_times_fail_log.
    simpl. rewrite app_nil_r. f_equal. f_equal. lia. }
  assert (Hf : Forall (fun w => 1000 <= w <= 5000) (wait_times log)).
  { rewrite Hw. apply Forall_forall. intros w Hin.
    apply in_map_iff in Hin as [n [<- Hn]].
    apply backoff_bounds. apply (zrange_ge 1 _ _ Hn). }
  split; [exact Hw|]. split; [exact Hf|].
  eapply Z.le_trans.
  - apply sum_Z_bound. eapply Forall_impl; [|exact Hf]. simpl. lia.
  - rewrite Hw, length_map.
    assert (Hlen : forall a d, length (zrange a d) = d).
    { intros a d. revert a. induction d; intros a; simpl; auto. }
    rewrite Hlen. lia.
Qed.

End RequestShape.

(* ================================================================== *)
(** * Properties of the student search *)

Module SearchFacts.
Import Codigo Search.

Lemma filter_opt_some (f : json -> option bool) (l r : list json) :
  filter_opt f l = Some r -> r = filter (holds f) l /\ forall x, In x r -> f x = Some true.
Proof.
  revert r; induction l as [|y t IH]; intros r; simpl.
  - intros [= <-]. split; [reflexivity|intros _ []].
  - unfold holds at 1. destruct (f y) as [[]|] eqn:Hy; [| |discriminate];
      destruct (filter_opt f t) as [r'|]; try discriminate; intros [= <-];
      destruct (IH r' eq_refl) as [-> Hin]; split; auto.
    intros x [<-|Hx]; auto.
Qed.

Lemma filter_opt_total (f : json -> option bool) (l : list json) :
  (forall x, In x l -> f x <> None) -> filter_opt f l = Some (filter (holds f) l).
Proof.
  induction l as [|y t IH]; intros Hl; simpl; [reflexivity|].
  unfold holds at 1. destruct (f y) as [b|] eqn:Hy.
  - rewrite IH by (intros x Hx; apply Hl; right; exact Hx). destruct b; reflexivity.
  - exfalso. apply (Hl y); [left; reflexivity|exact Hy].
Qed.

Lemma filter_opt_throws (f : json -> option bool) (l : list json) (x : json) :
  In x l -> f x = None -> filter_opt f l = None.
Proof.
  induction l as [|y t IH]; simpl; [tauto|].
  intros [->|Hx] Hf.
  - rewrite Hf. reflexivity.
  - destruct (f y); [|reflexivity]. rewrite IH by assumption. reflexivity.
Qed.

Lemma matches_true (q : list ascii) (x : json) :
  matches q x = Some true ->
  truthy x = true /\
  exists k f, In k search_fields /\ field_lower x k = Some f /\ includes f q = true.
Proof.
  unfold matches, search_fields.
  destruct (truthy x); [|discriminate]. intros H. split; [reflexivity|].
  destruct (field_lower x "nombre") as [n|] eqn:Hn; [|discriminate].
  destruct (includes n q) eqn:Hin; [exists "nombre", n; simpl; auto|].
  destruct (field_lower x "apellidos") as [a|] eqn:Ha; [|discriminate].
  destruct (includes a q) eqn:Hia; [exists "apellidos", a; simpl; auto|].
  destruct (field_lower x "codigo") as [c|] eqn:Hc; [|discriminate].
  destruct (includes c q) eqn:Hic; [exists "codigo", c; simpl; auto|].
  destruct (field_lower x "correo") as [e|] eqn:He; [|discriminate].
  exists "correo", e. injection H as H. simpl; auto 6.
Qed.

(** [filteredStudents] with a non blank query keeps a sub-list of the
    roster, in roster order, and every student it keeps is truthy and has
    one of the four searched fields containing the lower cased query. *)
Theorem filteredStudents_sound (students : json) (q : list ascii) (r : list json) :
  trim q <> [] ->
  filteredStudents students q = Some r ->
  (forall l, students = JArr l ->
     exists keep, r = filter keep l) /\
  forall x, In x r ->
    truthy x = true /\
    exists k f, In k search_fields /\ field_lower x k = Some f /\
                includes f (toLowerCase q) = true.
Proof.
  intros Hq. unfold filteredStudents.
  destruct students as [| | | |l|]; try (intros [= <-]; split;
    [intros ? [=]|intros _ []]).
  destruct (trim q) as [|c t]; [congruence|].
  intros Hr. apply filter_opt_some in Hr as [Hr Hin]. split.
  - intros l' [= <-]. exists (holds (matches (toLowerCase q))). exact Hr.
  - intros x Hx. apply matches_true, Hin, Hx.
Qed.

Lemma matches_total (q : list ascii) (x : json) :
  (truthy x = true -> fields_ok x) ->
  matches q x =
    Some (truthy x &&
          existsb (fun k => match field_lower x k with
                            | Some f => includes f q
                            | None => false
                            end) search_fields).
Proof.
  unfold matches, fields_ok, search_fields. intros Hok.
  destruct (truthy x); [|reflexivity]. specialize (Hok eq_refl).
  simpl existsb.
  destruct (field_lower x "nombre") as [n|] eqn:Hn;
    [|exfalso; apply (Hok "nombre"); simpl; auto].
  destruct (includes n q); [reflexivity|].
  destruct (field_lower x "apellidos") as [a|] eqn:Ha;
    [|exfalso; apply (Hok "apellidos"); simpl; auto].
  destruct (includes a q); [reflexivity|].
  destruct (field_lower x "codigo") as [c|] eqn:Hc;
    [|exfalso; apply (Hok "codigo"); simpl; auto].
  destruct (includes c q); [reflexivity|].
  destruct (field_lower x "correo") as [e|] eqn:He;
    [|exfalso; apply (Hok "correo"); simpl; auto].
  rewrite orb_false_r. reflexivity.
Qed.

(** When every truthy student has its searched fields absent, falsy or
    strings, [filteredStudents] with a non blank query does not throw: it
    keeps exactly the truthy students with a field containing the lower
    cased query, in roster order. *)
Theorem filteredStudents_exact (l : list json) (q : list ascii) :
  trim q <> [] ->
  (forall x, In x l -> truthy x = true -> fields_ok x) ->
  filteredStudents (JArr l) q =
    Some (filter (fun x =>
                    truthy x &&
                    existsb (fun k => match field_lower x k with
                                      | Some f => includes f (toLowerCase q)
                                      | None => false
                                      end) search_fields) l).
Proof.
  intros Hq Hl. unfold filteredStudents.
  destruct (trim q) as [|c t]; [congruence|].
  rewrite filter_opt_total.
  - f_equal. apply filter_ext_in. intros x Hx. unfold holds.
    rewrite matches_total by (apply Hl, Hx). reflexivity.
  - intros x Hx. rewrite matches_total by (apply Hl, Hx). discriminate.
Qed.

Lemma lower_char_upper_char (c : ascii) : lower_char (upper_char c) = lower_char c.
Proof.
  destruct c as [[] [] [] [] [] [] [] []]; reflexivity.
Qed.

Lemma lower_char_idem (c : ascii) : lower_char (lower_char c) = lower_char c.
Proof.
  destruct c as [[] [] [] [] [] [] [] []]; reflexivity.
Qed.

Lemma is_space_lower_char (c : ascii) : is_space (lower_char c) = is_space c.
Proof.
  destruct c as [[] [] [] [] [] [] [] []]; reflexivity.
Qed.

Lemma trim_map (g : ascii -> ascii) (s : list ascii) :
  (forall c, is_space (g c) = is_space c) -> trim (map g s) = map g (trim s).
Proof.
  intros Hg.
  assert (Hs : forall s, trim_start (map g s) = map g (trim_start s)).
  { induction s0 as [|c t IH]; simpl; auto. rewrite Hg. destruct (is_space c); auto. }
  unfold trim. rewrite Hs, <- map_rev, Hs, map_rev. reflexivity.
Qed.

Lemma filteredStudents_map (g : ascii -> ascii) (students : json) (q : list ascii) :
  (forall c, is_space (g c) = is_space c) ->
  (forall c, lower_char (g c) = lower_char c) ->
  filteredStudents students (map g q) = filteredStudents students q.
Proof.
  intros Hs Hl. unfold filteredStudents.
  destruct students; try reflexivity.
  rewrite (trim_map g q Hs).
  assert (Hq : toLowerCase (map g q) = toLowerCase q).
  { unfold toLowerCase. rewrite map_map. apply map_ext, Hl. }
  rewrite Hq. destruct (trim q); reflexivity.
Qed.

(** The search is case-insensitive in the query: upper casing or lower
    casing what the operator typed shows the same list, or throws alike. *)
Theorem filteredStudents_query_case (students : json) (q : list ascii) :
  filteredStudents students (toUpperCase q) = filteredStudents students q /\
  filteredStudents students (toLowerCase q) = filteredStudents students q.
Proof.
  split; apply filteredStudents_map.
  - apply CodigoFacts.is_space_upper_char.
  - apply lower_char_upper_char.
  - apply is_space_lower_char.
  - apply lower_char_idem.
Qed.

(** [filterStudents] of the search screen reads [student.nombre] of every
    student with no fallback: with a non blank query, one [null] student,
    or one whose [nombre] is missing or not a string, makes the whole
    search throw, wherever it sits in the list. *)
Theorem filterStudents_throws (students : list json) (q : list ascii) (x : json) :
  trim q <> [] ->
  In x students ->
  (x = JNull \/ forall s, get x "nombre" <> Some (JStr s)) ->
  filterStudents students q = None.
Proof.
  intros Hq Hin Hx. unfold filterStudents.
  destruct (trim q) as [|c t]; [congruence|].
  apply (filter_opt_throws _ _ x Hin).
  unfold matches_strict, field_lower_strict.
  destruct Hx as [->|Hx]; [reflexivity|].
  destruct x as [| | | | |fs]; try reflexivity.
  destruct (get (JObj fs) "nombre") as [[]|] eqn:Hg; try reflexivity.
  exfalso. apply (Hx s). reflexivity.
Qed.

End SearchFacts.

(* ================================================================== *)
(** * Properties of the [ApiService] class and the menu statistics *)

Module ServiceFacts.
Import Axios ApiService ApiServiceMore.

(** How [recognizeStudent] of the [ApiService] class reports a failed
    request: always after one request, a missing response, a response
    later than 120000 ms, a 5xx and a 400 each get their own message (a
    400 prefers the server's [detail]); any other non 2xx status rethrows
    the axios error with its response. *)
Theorem recognizeStudent_errors (tr : transport) :
  snd (ApiService.recognizeStudent tr) = [Attempt 1] /\
  (tr 1 = NoConnection ->
     fst (ApiService.recognizeStudent tr) =
       Err (ErrorMsg (JStr "🌐 Sin conexión al servidor. Verifica tu internet."))) /\
  (forall el st txt b, tr 1 = Responded el st txt b ->
     let data := match b with Some j => j | None => JStr txt end in
     (120000 <= el -> fst (ApiService.recognizeStudent tr) =
        Err (ErrorMsg (JStr "⏱️ Timeout: El reconocimiento está tomando demasiado tiempo"))) /\
     (el < 120000 -> 500 <= st -> fst (ApiService.recognizeStudent tr) =
        Err (ErrorMsg (JStr "🔧 Error del servidor. Intenta nuevamente."))) /\
     (el < 120000 -> st = 400 -> fst (ApiService.recognizeStudent tr) =
        Err (ErrorMsg (or_else (get_opt (Some data) "detail")
                               (JStr "Imagen inválida o sin rostro detectado")))) /\
     (el < 120000 -> ok_status st = false -> st < 500 -> st <> 400 ->
        exists code, fst (ApiService.recognizeStudent tr) =
                     Err (AxiosError code (Some (st, data))))).
Proof.
  unfold ApiService.recognizeStudent, send.
  split; [destruct (tr 1); simpl; reflexivity|].
  split; [intros ->; reflexivity|].
  intros el st txt b ->.
  split; [|split; [|split]]; intros Hel.
  - rewrite (proj2 (Z.leb_le _ _) Hel). reflexivity.
  - intros Hst. rewrite (proj2 (Z.leb_gt _ _) Hel).
    replace (ok_status st) with false by (unfold ok_status; symmetry;
      apply andb_false_iff; right; apply Z.leb_gt; lia).
    replace (st <? 500) with false by (symmetry; apply Z.ltb_ge; lia).
    simpl. unfold recognize_error. simpl.
    replace (st =? 400) with false by (symmetry; apply Z.eqb_neq; lia).
    replace (500 <=? st) with true by (symmetry; apply Z.leb_le; lia).
    reflexivity.
  - intros ->. rewrite (proj2 (Z.leb_gt _ _) Hel). reflexivity.
  - intros Hok Hst H400. rewrite (proj2 (Z.leb_gt _ _) Hel), Hok.
    rewrite (proj2 (Z.ltb_lt _ _) Hst). simpl. unfold recognize_error. simpl.
    rewrite (proj2 (Z.eqb_neq _ _) H400).
    replace (500 <=? st) with false by (symmetry; apply Z.leb_gt; lia).
    eexists. reflexivity.
Qed.

Lemma send_5xx (timeout : Z) (tr : transport) el st txt b :
  tr 1 = Responded el st txt b -> el < timeout -> 500 <= st ->
  send timeout tr 1 =
    (Err (AxiosError (Some "ERR_BAD_RESPONSE")
            (Some (st, match b with Some j => j | None => JStr txt end))), [Attempt 1]).
Proof.
  intros Htr Hel Hst. unfold send. rewrite Htr.
  rewrite (proj2 (Z.leb_gt _ _) Hel).
  replace (ok_status st) with false by (unfold ok_status; symmetry;
    apply andb_false_iff; right; apply Z.leb_gt; lia).
  replace (st <? 500) with false by (symmetry; apply Z.ltb_ge; lia).
  reflexivity.
Qed.

Lemma handleApiError_5xx c st data dm :
  500 <= st ->
  handleApiError (AxiosError c (Some (st, data))) dm =
    ErrorMsg (JStr "Error interno del servidor").
Proof.
  intros Hst. simpl.
  replace (st =? 400) with false by (symmetry; apply Z.eqb_neq; lia).
  replace (st =? 404) with false by (symmetry; apply Z.eqb_neq; lia).
  replace (st =? 422) with false by (symmetry; apply Z.eqb_neq; lia).
  replace (500 <=? st) with true by (symmetry; apply Z.leb_le; lia).
  reflexivity.
Qed.

Lemma handled_errors (timeout : Z) (dm : string) (tr : transport) :
  crud_errors (handled timeout dm) timeout tr.
Proof.
  unfold crud_errors, handled.
  split; [intros Htr; unfold send; rewrite Htr; reflexivity|].
  intros el st txt b Htr. split; [|split].
  - intros Hel. unfold send. rewrite Htr, (proj2 (Z.leb_le _ _) Hel). reflexivity.
  - intros Hel ->. unfold send. rewrite Htr, (proj2 (Z.leb_gt _ _) Hel). reflexivity.
  - intros Hel Hst. rewrite (send_5xx timeout tr el st txt b Htr Hel Hst).
    rewrite handleApiError_5xx by exact Hst. reflexivity.
Qed.

(** The student methods of the [ApiService] class never retry: each makes
    one request, and [handleApiError] turns a missing or late response
    into ["Sin conexión al servidor"], a 404 into ["Recurso no
    encontrado"] and any status from 500 on into ["Error interno del
    servidor"], whatever the method's own default message. *)
Theorem student_methods_errors (tr : transport) :
  Forall (fun p => crud_errors (fst p) (snd p) tr)
    [(ApiServiceMore.getStudents, client_timeout); (getStudent, client_timeout);
     (createStudent, 60000); (updateStudent, client_timeout);
     (deleteStudent, client_timeout)].
Proof.
  assert (Hget : crud_errors ApiServiceMore.getStudents client_timeout tr).
  { unfold crud_errors, ApiServiceMore.getStudents.
    split; [intros Htr; unfold send; rewrite Htr; reflexivity|].
    intros el st txt b Htr. split; [|split].
    - intros Hel. unfold send. rewrite Htr, (proj2 (Z.leb_le _ _) Hel). reflexivity.
    - intros Hel ->. unfold send. rewrite Htr, (proj2 (Z.leb_gt _ _) Hel). reflexivity.
    - intros Hel Hst. rewrite (send_5xx client_timeout tr el st txt b Htr Hel Hst).
      rewrite handleApiError_5xx by exact Hst. reflexivity. }
  repeat (apply Forall_cons; [simpl|]); try apply Forall_nil;
    [exact Hget|apply handled_errors..].
Qed.

(** [getStudents] of the [ApiService] class returns a 2xx body as it is,
    even when it is not an array; only a JSON [null] body fails, with the
    [TypeError] of reading [response.data.length]. *)
Theorem getStudents_body (tr : transport) el st txt b :
  tr 1 = Responded el st txt b -> el < client_timeout -> ok_status st = true ->
  let data := match b with Some j => j | None => JStr txt end in
  ApiServiceMore.getStudents tr =
    (match data with JNull => Err TypeErr | _ => Ok data end, [Attempt 1]).
Proof.
  intros Htr Hel Hok data. unfold ApiServiceMore.getStudents, send.
  rewrite Htr, (proj2 (Z.leb_gt _ _) Hel), Hok.
  subst data. destruct b as [[]|]; reflexivity.
Qed.

(** [getRecognitionLogs] never rejects: unless a 2xx response arrives
    within 120000 ms it resolves to an empty list. *)
Theorem getRecognitionLogs_never_fails (tr : transport) :
  snd (getRecognitionLogs tr) = [Attempt 1] /\
  exists v, fst (getRecognitionLogs tr) = Ok v /\
  (~ (exists el st txt b, tr 1 = Responded el st txt b /\ el < client_timeout /\
                          ok_status st = true) ->
   v = JArr []).
Proof.
  unfold getRecognitionLogs, send.
  destruct (tr 1) as [|el st txt b] eqn:Htr; simpl.
  - split; [reflexivity|]. eexists; split; [reflexivity|auto].
  - split; [destruct (client_timeout <=? el), (ok_status st), (st <? 500); reflexivity|].
    destruct (client_timeout <=? el) eqn:Hel.
    + eexists; split; [reflexivity|auto].
    + destruct (ok_status st) eqn:Hok.
      * eexists; split; [reflexivity|]. intros Hn. exfalso. apply Hn.
        exists el, st, txt, b. split; [reflexivity|]. split; [|exact Hok].
        apply Z.leb_gt, Hel.
      * destruct (st <? 500); (eexists; split; [reflexivity|auto]).
Qed.

(** [checkHealth] fails, with ["Servidor no disponible"], exactly when no
    2xx response arrives within its own 10000 ms timeout. *)
Theorem checkHealth_fails_iff (tr : transport) :
  fst (checkHealth tr) = Err (ErrorMsg (JStr "Servidor no disponible")) <->
  ~ (exists el st txt b, tr 1 = Responded el st txt b /\ el < 10000 /\
                         ok_status st = true).
Proof.
  unfold checkHealth, send.
  destruct (tr 1) as [|el st txt b] eqn:Htr; simpl.
  - split; [intros _ [el [st [txt [b [H _]]]]]; discriminate|reflexivity].
  - destruct (10000 <=? el) eqn:Hel.
    + apply Z.leb_le in Hel. split; [|reflexivity].
      intros _ [el' [st' [txt' [b' [[= <- <- <- <-] [H _]]]]]]. lia.
    + apply Z.leb_gt in Hel. destruct (ok_status st) eqn:Hok.
      * split; [discriminate|]. intros Hn. exfalso. apply Hn.
        exists el, st, txt, b. auto.
      * split; [|destruct (st <? 500); reflexivity].
        intros _ [el' [st' [txt' [b' [[= <- <- <- <-] [_ H]]]]]]. congruence.
Qed.

End ServiceFacts.

Module StatsFacts.
Import MenuStats.

(** The menu's counts never exceed the roster size, are all zero while the
    roster is not an array, and the recognition figures fall back to 0
    while the statistics are not loaded. *)
Theorem combinedStats_bounds (students recognitionStats : option json) :
  let c := combinedStats students recognitionStats in
  (students_with_photo c <= total_students c)%nat /\
  (requisitoriados c <= total_students c)%nat /\
  ((forall l, students <> Some (JArr l)) ->
     total_students c = O /\ students_with_photo c = O /\ requisitoriados c = O) /\
  (recognitionStats = None ->
     successful_recognitions c = JNum 0 /\ success_rate c = JNum 0 /\
     total_recognitions c = JNum 0).
Proof.
  cbv zeta. unfold combinedStats. simpl.
  split; [|split; [|split]].
  - destruct students as [[]|]; auto. apply filter_length_le.
  - destruct students as [[]|]; auto. apply filter_length_le.
  - intros Hn. destruct students as [[]|]; auto.
    exfalso. apply (Hn items). reflexivity.
  - intros ->. auto.
Qed.

End StatsFacts.

(* ================================================================== *)
(** * The e-mail check and the similarity threshold *)

Module EmailFacts.
Import Email.

Lemma split_at_at_some (s a d : list ascii) :
  split_at_at s = Some (a, d) -> s = a ++ "@"%char :: d /\ forallb no_at a = true.
Proof.
  revert a d; induction s as [|c t IH]; intros a d; simpl; [discriminate|].
  destruct (Ascii.eqb c "@"%char) eqn:Hc.
  - intros [= <- <-]. apply Ascii.eqb_eq in Hc. subst c. auto.
  - destruct (split_at_at t) as [[a' d']|] eqn:Ht; [|discriminate].
    intros [= <- <-]. destruct (IH a' d' eq_refl) as [-> Ha].
    split; [reflexivity|]. simpl. unfold no_at at 1. rewrite Hc, Ha. reflexivity.
Qed.

Lemma dot_then_nonempty_some (t : list ascii) :
  dot_then_nonempty t = true -> exists b c, t = b ++ "."%char :: c /\ c <> [].
Proof.
  induction t as [|x t IH]; simpl; [discriminate|].
  intros H. apply orb_prop in H as [H|H].
  - apply andb_prop in H as [Hx Hne]. apply Ascii.eqb_eq in Hx. subst x.
    exists [], t. split; [reflexivity|]. destruct t; [discriminate|congruence].
  - destruct (IH H) as [b [c [-> Hc]]]. exists (x :: b), c. auto.
Qed.

Lemma isValidEmail_sound (s : list ascii) : isValidEmail s = true -> email_regex s.
Proof.
  unfold isValidEmail.
  destruct (split_at_at s) as [[a d]|] eqn:Hs; [|discriminate].
  apply split_at_at_some in Hs as [-> _].
  destruct d as [|x t]; [rewrite andb_false_r; discriminate|].
  intros H. apply andb_prop in H as [H Hdot].
  apply andb_prop in H as [H Hd]. apply andb_prop in H as [Hne Ha].
  destruct (dot_then_nonempty_some t Hdot) as [b [c [-> Hc]]].
  simpl in Hd. apply andb_prop in Hd as [Hx Hbc].
  rewrite forallb_app in Hbc. apply andb_prop in Hbc as [Hb Hc'].
  simpl in Hc'.
  exists a, (x :: b), c.
  split; [destruct a; [discriminate|congruence]|].
  split; [discriminate|]. split; [exact Hc|]. split; [exact Ha|].
  split; [simpl; rewrite Hx, Hb; reflexivity|]. split; [exact Hc'|].
  reflexivity.
Qed.

Lemma count_at_plain (l : list ascii) :
  forallb plain l = true -> count_occ ascii_dec l "@"%char = O.
Proof.
  induction l as [|c t IH]; simpl; auto.
  unfold plain at 1. intros H. apply andb_prop in H as [H1 H2].
  apply andb_prop in H1 as [_ H1]. apply negb_true_iff, Ascii.eqb_neq in H1.
  destruct (ascii_dec c "@"%char); [contradiction|auto].
Qed.

Lemma no_space_plain (l : list ascii) :
  forallb plain l = true -> forallb (fun c => negb (Codigo.is_space c)) l = true.
Proof.
  induction l as [|c t IH]; simpl; auto.
  unfold plain at 1. intros H. apply andb_prop in H as [H1 H2].
  apply andb_prop in H1 as [H1 _]. rewrite H1, IH; auto.
Qed.

(** An address accepted by the student forms has exactly one [@], no
    white space, at least one character before the [@], and a [.] after
    it that is neither right after the [@] nor the last character. *)
Theorem isValidEmail_shape (s : list ascii) :
  isValidEmail s = true ->
  count_occ ascii_dec s "@"%char = 1%nat /\
  forallb (fun c => negb (Codigo.is_space c)) s = true /\
  exists a b c, a <> [] /\ b <> [] /\ c <> [] /\ s = a ++ "@"%char :: b ++ "."%char :: c.
Proof.
  intros Hv. destruct (isValidEmail_sound s Hv)
    as [a [b [c [Ha [Hb [Hc [Pa [Pb [Pc ->]]]]]]]]].
  split; [|split].
  - rewrite count_occ_app. simpl. rewrite count_occ_app. simpl.
    rewrite !count_at_plain by assumption. reflexivity.
  - rewrite forallb_app. simpl. rewrite forallb_app. simpl.
    rewrite !no_space_plain by assumption. reflexivity.
  - exists a, b, c. auto.
Qed.

End EmailFacts.

Module ThresholdFacts.
Import Threshold.

(** The threshold kept by SettingsScreen.js is always in [[0.1, 1]]; a
    number already in that range is kept, anything below (and [NaN]) gives
    0.1, anything above gives 1. *)
Theorem threshold_of_clamped (p : option Q) :
  (1 # 10 <= threshold_of p <= 1)%Q /\
  (forall q, (1 # 10 <= q <= 1)%Q -> threshold_of (Some q) == q)%Q /\
  (forall q, (q < 1 # 10)%Q -> threshold_of (Some q) == 1 # 10)%Q /\
  (forall q, (1 < q)%Q -> threshold_of (Some q) == 1)%Q /\
  (threshold_of None == 1 # 10)%Q.
Proof.
  unfold threshold_of. split; [|split; [|split; [|split]]].
  - split.
    + apply Q.min_glb; [discriminate|apply Q.le_max_l].
    + apply Q.le_min_l.
  - intros q [H1 H2]. rewrite Q.max_r by exact H1. apply Q.min_r, H2.
  - intros q H. rewrite Q.max_l by (apply Qlt_le_weak, H). apply Q.min_r. discriminate.
  - intros q H. apply Q.min_l. eapply Qle_trans; [apply Qlt_le_weak, H|apply Q.le_max_r].
  - rewrite Q.max_l by discriminate. apply Q.min_r. discriminate.
Qed.

End ThresholdFacts.

(* ================================================================== *)
(** * Concrete instances of the properties above *)

Module ExtraWitnesses.
Import MakeRequest RequestShape Codigo Search SearchFacts ServiceFacts Email EmailFacts.

(** Two refused connections, then a 200, with 3 allowed attempts. *)
Lemma makeRequest_waits_bounded_witness :
  let tr := fun n => if n <? 3 then NoConnection
                     else Responded 10 200 "true" (Some (JBool true)) in
  let log := [Attempt 1; Wait 1000; Attempt 2; Wait 2000; Attempt 3] in
  makeRequest 15000 3 tr = Some (Ok (JBool true), log) /\
  (wait_times log = map backoff (zrange 1 (count_attempts log - 1)) /\
   Forall (fun w => 1000 <= w <= 5000) (wait_times log) /\
   sum_Z (wait_times log) <= 5000 * Z.of_nat (count_attempts log - 1)).
Proof.
  intros tr log. split; [vm_compute; reflexivity|].
  apply (makeRequest_waits_bounded 15000 3 tr (Ok (JBool true)) log).
  vm_compute. reflexivity.
Defined.

(** A search for ["ana"] over a roster holding a [null] entry. *)
Lemma filteredStudents_sound_witness :
  let st := JObj [("nombre", JStr "Ana"); ("apellidos", JStr "Lopez");
                  ("codigo", JStr "ABC123"); ("correo", JStr "ana@uni.pe")] in
  let q := list_ascii_of_string "ana" in
  trim q <> [] /\ filteredStudents (JArr [st; JNull]) q = Some [st] /\
  ((forall l, JArr [st; JNull] = JArr l -> exists keep, [st] = filter keep l) /\
   forall x, In x [st] ->
     truthy x = true /\
     exists k f, In k search_fields /\ field_lower x k = Some f /\
                 includes f (toLowerCase q) = true).
Proof.
  intros st q.
  assert (Hq : trim q <> []) by (vm_compute; discriminate).
  assert (Hr : filteredStudents (JArr [st; JNull]) q = Some [st])
    by (vm_compute; reflexivity).
  split; [exact Hq|]. split; [exact Hr|].
  exact (filteredStudents_sound (JArr [st; JNull]) q [st] Hq Hr).
Defined.

(** A search for ["LU"] over students with missing fields and a [null]. *)
Lemma filteredStudents_exact_witness :
  let st1 := JObj [("nombre", JStr "Ana"); ("codigo", JStr "ABC123")] in
  let st2 := JObj [("nombre", JStr "Luis"); ("correo", JNull)] in
  let q := list_ascii_of_string "LU" in
  filteredStudents (JArr [st1; JNull; st2]) q = Some [st2] /\
  filteredStudents (JArr [st1; JNull; st2]) q =
    Some (filter (fun x =>
                    truthy x &&
                    existsb (fun k => match field_lower x k with
                                      | Some f => includes f (toLowerCase q)
                                      | None => false
                                      end) search_fields) [st1; JNull; st2]).
Proof.
  intros st1 st2 q. split; [vm_compute; reflexivity|].
  apply filteredStudents_exact.
  - vm_compute. discriminate.
  - intros x Hx Ht k Hk. simpl in Hx, Hk.
    destruct Hx as [<-|[<-|[<-|[]]]]; [| discriminate Ht |];
      destruct Hk as [<-|[<-|[<-|[<-|[]]]]]; vm_compute; discriminate.
Defined.

(** A student without [nombre] behind a matching one. *)
Lemma filterStudents_throws_witness :
  let st1 := JObj [("nombre", JStr "Ana"); ("apellidos", JStr "Lopez");
                   ("codigo", JStr "ABC123"); ("correo", JStr "ana@uni.pe")] in
  let st2 := JObj [("apellidos", JStr "Quispe")] in
  filterStudents [st1; st2] (list_ascii_of_string "ana") = None.
Proof.
  intros st1 st2. apply (filterStudents_throws [st1; st2] _ st2).
  - vm_compute. discriminate.
  - right. left. reflexivity.
  - right. intros s. vm_compute. discriminate.
Defined.

(** A 200 whose body is an object, not an array. *)
Lemma getStudents_body_witness :
  ApiServiceMore.getStudents (fun _ => Responded 40 200 "{}" (Some (JObj []))) =
    (Ok (JObj []), [Attempt 1]).
Proof.
  exact (getStudents_body (fun _ => Responded 40 200 "{}" (Some (JObj [])))
           40 200 "{}" (Some (JObj [])) eq_refl eq_refl eq_refl).
Defined.

Lemma isValidEmail_shape_witness :
  let s := list_ascii_of_string "ana@uni.edu.pe" in
  isValidEmail s = true /\
  (count_occ ascii_dec s "@"%char = 1%nat /\
   forallb (fun c => negb (Codigo.is_space c)) s = true /\
   exists a b c, a <> [] /\ b <> [] /\ c <> [] /\ s = a ++ "@"%char :: b ++ "."%char :: c).
Proof.
  intros s. assert (Hv : isValidEmail s = true) by (vm_compute; reflexivity).
  split; [exact Hv|]. exact (isValidEmail_shape s Hv).
Defined.

End ExtraWitnesses.
